(** * NES target of GBDK: the sprite and tile-map interface of [nes/nes.h]

    A shallow embedding of the inline functions and macros of the header
    [gbdk-lib/include/nes/nes.h]: the shadow OAM accessors, the OAM DMA
    configuration byte, and the thin wrappers around the tile routines of
    the library.

    C integers are modelled as [Z] with the conversions of C written out.
    The globals the header declares are the fields of one [machine] record
    that every operation threads explicitly.  Indexing [shadow_OAM] outside
    of the array is undefined behaviour in C; the embedding returns [None]
    there. *)

From Stdlib Require Import ZArith Lia.
From stdpp Require Import base option list gmap.

Local Open Scope Z_scope.

(** ** Integer types of the target *)

(** Conversion to [uint8_t]: reduction modulo 2^8. *)
Definition to_uint8 (z : Z) : Z := z mod 256.

(** Conversion to [uint16_t]: reduction modulo 2^16.  Data pointers of the
    6502 are 16 bits wide, so this is also the cast of a pointer. *)
Definition to_uint16 (z : Z) : Z := z mod 65536.

(** Value ranges of the parameter types. *)
Definition is_uint8 (z : Z) : Prop := 0 <= z < 256.
Definition is_int8 (z : Z) : Prop := -128 <= z < 128.
Definition is_uint16 (z : Z) : Prop := 0 <= z < 65536.

(** ** Data model *)

(** [struct OAM_item_t]: four bytes in the order the PPU dictates. *)
Module OAM_item.
Record OAM_item_t : Type := mk {
  y : Z;     (* Y coordinate of the sprite on screen - 1 *)
  tile : Z;  (* Sprite tile number *)
  prop : Z;  (* OAM Property Flags *)
  x : Z      (* X coordinate of the sprite on screen *)
}.

(** Assignments to one member; the stored value is converted to the
    member's type, [uint8_t]. *)
Definition set_y (v : Z) (itm : OAM_item_t) : OAM_item_t :=
  {| y := to_uint8 v; tile := tile itm; prop := prop itm; x := x itm |}.
Definition set_tile (v : Z) (itm : OAM_item_t) : OAM_item_t :=
  {| y := y itm; tile := to_uint8 v; prop := prop itm; x := x itm |}.
Definition set_prop (v : Z) (itm : OAM_item_t) : OAM_item_t :=
  {| y := y itm; tile := tile itm; prop := to_uint8 v; x := x itm |}.
Definition set_x (v : Z) (itm : OAM_item_t) : OAM_item_t :=
  {| y := y itm; tile := tile itm; prop := prop itm; x := to_uint8 v |}.
End OAM_item.
Abbreviation OAM_item_t := OAM_item.OAM_item_t.

(** Amount of hardware sprites in OAM. *)
Definition MAX_HARDWARE_SPRITES : Z := 64.

(** The globals of the header, and the two memories of the PPU that the
    library routines and the OAM DMA write. *)
Record machine : Type := mk_machine {
  shadow_OAM : list OAM_item_t;  (* extern volatile struct OAM_item_t shadow_OAM[] *)
  _shadow_OAM_base : Z;          (* extern uint8_t _shadow_OAM_base *)
  _map_tile_offset : Z;          (* extern uint8_t _map_tile_offset *)
  _submap_tile_offset : Z;       (* extern uint8_t _submap_tile_offset *)
  shadow_PPUCTRL : Z;            (* shadow of the PPU control register *)
  shadow_PPUMASK : Z;            (* shadow of the PPU mask register *)
  bkg_scroll_x : Z;              (* background scroll, X *)
  bkg_scroll_y : Z;              (* background scroll, Y *)
  OAM : list Z;                  (* object attribute memory of the PPU *)
  VRAM : gmap Z Z                (* PPU address space: pattern tables, tile maps *)
}.

(** Assignments to the globals that the header writes. *)
Definition set_shadow_OAM (v : list OAM_item_t) (s : machine) : machine :=
  {| shadow_OAM := v;
     _shadow_OAM_base := _shadow_OAM_base s;
     _map_tile_offset := _map_tile_offset s;
     _submap_tile_offset := _submap_tile_offset s;
     shadow_PPUCTRL := shadow_PPUCTRL s;
     shadow_PPUMASK := shadow_PPUMASK s;
     bkg_scroll_x := bkg_scroll_x s;
     bkg_scroll_y := bkg_scroll_y s;
     OAM := OAM s;
     VRAM := VRAM s |}.

Definition set__shadow_OAM_base (v : Z) (s : machine) : machine :=
  {| shadow_OAM := shadow_OAM s;
     _shadow_OAM_base := to_uint8 v;
     _map_tile_offset := _map_tile_offset s;
     _submap_tile_offset := _submap_tile_offset s;
     shadow_PPUCTRL := shadow_PPUCTRL s;
     shadow_PPUMASK := shadow_PPUMASK s;
     bkg_scroll_x := bkg_scroll_x s;
     bkg_scroll_y := bkg_scroll_y s;
     OAM := OAM s;
     VRAM := VRAM s |}.

Definition set__map_tile_offset (v : Z) (s : machine) : machine :=
  {| shadow_OAM := shadow_OAM s;
     _shadow_OAM_base := _shadow_OAM_base s;
     _map_tile_offset := to_uint8 v;
     _submap_tile_offset := _submap_tile_offset s;
     shadow_PPUCTRL := shadow_PPUCTRL s;
     shadow_PPUMASK := shadow_PPUMASK s;
     bkg_scroll_x := bkg_scroll_x s;
     bkg_scroll_y := bkg_scroll_y s;
     OAM := OAM s;
     VRAM := VRAM s |}.

Definition set__submap_tile_offset (v : Z) (s : machine) : machine :=
  {| shadow_OAM := shadow_OAM s;
     _shadow_OAM_base := _shadow_OAM_base s;
     _map_tile_offset := _map_tile_offset s;
     _submap_tile_offset := to_uint8 v;
     shadow_PPUCTRL := shadow_PPUCTRL s;
     shadow_PPUMASK := shadow_PPUMASK s;
     bkg_scroll_x := bkg_scroll_x s;
     bkg_scroll_y := bkg_scroll_y s;
     OAM := OAM s;
     VRAM := VRAM s |}.

Definition set_VRAM (v : gmap Z Z) (s : machine) : machine :=
  {| shadow_OAM := shadow_OAM s;
     _shadow_OAM_base := _shadow_OAM_base s;
     _map_tile_offset := _map_tile_offset s;
     _submap_tile_offset := _submap_tile_offset s;
     shadow_PPUCTRL := shadow_PPUCTRL s;
     shadow_PPUMASK := shadow_PPUMASK s;
     bkg_scroll_x := bkg_scroll_x s;
     bkg_scroll_y := bkg_scroll_y s;
     OAM := OAM s;
     VRAM := v |}.

(** The shadow OAM table holds one entry per hardware sprite. *)
Definition shadow_OAM_sized (s : machine) : Prop :=
  Z.of_nat (length (shadow_OAM s)) = MAX_HARDWARE_SPRITES.

(** ** Shadow OAM accessors *)

(** The subscript of [shadow_OAM[nb]]: the sprite number as converted to
    the [uint8_t] of the parameter [nb]. *)
Definition sprite_index (nb : Z) : nat := Z.to_nat (to_uint8 nb).

(** [shadow_OAM[nb]] as an lvalue whose members are then assigned: the
    entry is read, changed by [f] and written back.  [nb] is a [uint8_t];
    past the end of the array the access is undefined. *)
Definition update_shadow_OAM (nb : Z) (f : OAM_item_t -> OAM_item_t)
    (s : machine) : option machine :=
  itm ← shadow_OAM s !! sprite_index nb;
  Some (set_shadow_OAM (<[sprite_index nb := f itm]> (shadow_OAM s)) s).

(** [inline void set_sprite_tile(uint8_t nb, uint8_t tile)]:
    [shadow_OAM[nb].tile=tile;] *)
Definition set_sprite_tile (nb tile : Z) (s : machine) : option machine :=
  update_shadow_OAM nb (OAM_item.set_tile tile) s.

(** [inline uint8_t get_sprite_tile(uint8_t nb)]:
    [return shadow_OAM[nb].tile;] *)
Definition get_sprite_tile (nb : Z) (s : machine) : option Z :=
  OAM_item.tile <$> shadow_OAM s !! sprite_index nb.

(** [inline void set_sprite_prop(uint8_t nb, uint8_t prop)]:
    [shadow_OAM[nb].prop=prop;] *)
Definition set_sprite_prop (nb prop : Z) (s : machine) : option machine :=
  update_shadow_OAM nb (OAM_item.set_prop prop) s.

(** [inline uint8_t get_sprite_prop(uint8_t nb)]:
    [return shadow_OAM[nb].prop;] *)
Definition get_sprite_prop (nb : Z) (s : machine) : option Z :=
  OAM_item.prop <$> shadow_OAM s !! sprite_index nb.

(** [inline void move_sprite(uint8_t nb, uint8_t x, uint8_t y)]:
    [OAM_item_t * itm = &shadow_OAM[nb]; itm->y=y, itm->x=x;] *)
Definition move_sprite (nb x y : Z) (s : machine) : option machine :=
  update_shadow_OAM nb
    (fun itm => OAM_item.set_x x (OAM_item.set_y y itm)) s.

(** [inline void scroll_sprite(uint8_t nb, int8_t x, int8_t y)]:
    [OAM_item_t * itm = &shadow_OAM[nb]; itm->y+=y, itm->x+=x;]
    Both operands are promoted to [int], added, and the sum is converted
    back to [uint8_t] by the assignment. *)
Definition scroll_sprite (nb x y : Z) (s : machine) : option machine :=
  update_shadow_OAM nb
    (fun itm =>
       let itm := OAM_item.set_y (OAM_item.y itm + y) itm in
       OAM_item.set_x (OAM_item.x itm + x) itm) s.

(** [inline void hide_sprite(uint8_t nb)]: [shadow_OAM[nb].y = 240;] *)
Definition hide_sprite (nb : Z) (s : machine) : option machine :=
  update_shadow_OAM nb (OAM_item.set_y 240) s.

(** The five functions that write the shadow buffer, as one type of
    requests applied to sprite [nb]. *)
Inductive mutator : Type :=
| Set_sprite_tile (tile : Z)
| Set_sprite_prop (prop : Z)
| Move_sprite (x y : Z)
| Scroll_sprite (x y : Z)
| Hide_sprite.

Definition apply_mutator (m : mutator) (nb : Z) (s : machine) : option machine :=
  match m with
  | Set_sprite_tile tile => set_sprite_tile nb tile s
  | Set_sprite_prop prop => set_sprite_prop nb prop s
  | Move_sprite x y => move_sprite nb x y s
  | Scroll_sprite x y => scroll_sprite nb x y s
  | Hide_sprite => hide_sprite nb s
  end.

(** The arguments of a [mutator] lie in the ranges of their C types. *)
Definition mutator_typed (m : mutator) : Prop :=
  match m with
  | Set_sprite_tile tile => is_uint8 tile
  | Set_sprite_prop prop => is_uint8 prop
  | Move_sprite x y => is_uint8 x /\ is_uint8 y
  | Scroll_sprite x y => is_int8 x /\ is_int8 y
  | Hide_sprite => True
  end.

(** ** OAM DMA configuration *)

(** [#define DISABLE_OAM_DMA _shadow_OAM_base = 0] *)
Definition DISABLE_OAM_DMA (s : machine) : machine :=
  set__shadow_OAM_base 0 s.

(** [#define DISABLE_VBL_TRANSFER DISABLE_OAM_DMA] *)
Definition DISABLE_VBL_TRANSFER : machine -> machine := DISABLE_OAM_DMA.

(** [#define ENABLE_OAM_DMA
       _shadow_OAM_base = (uint8_t)((uint16_t)&shadow_OAM >> 8)]
    The address of [shadow_OAM] is fixed by the linker; it is the first
    argument here. *)
Definition ENABLE_OAM_DMA (shadow_OAM_address : Z) (s : machine) : machine :=
  set__shadow_OAM_base
    (to_uint8 (Z.shiftr (to_uint16 shadow_OAM_address) 8)) s.

(** [#define ENABLE_VBL_TRANSFER ENABLE_OAM_DMA] *)
Definition ENABLE_VBL_TRANSFER : Z -> machine -> machine := ENABLE_OAM_DMA.

(** [inline void SET_SHADOW_OAM_ADDRESS(void * address)]:
    [_shadow_OAM_base = (uint8_t)((uint16_t)address >> 8);] *)
Definition SET_SHADOW_OAM_ADDRESS (address : Z) (s : machine) : machine :=
  set__shadow_OAM_base (to_uint8 (Z.shiftr (to_uint16 address) 8)) s.

(** ** Tile routines of the library *)

(** The header only declares these four routines; they are written in
    assembly elsewhere.  Buffers passed by pointer are the lists of bytes
    they point to. *)
Class Library : Type := {
  (* void set_bkg_data(uint8_t first_tile, uint8_t nb_tiles, const uint8_t *data) *)
  set_bkg_data : Z -> Z -> list Z -> machine -> machine;
  (* void set_sprite_data(uint8_t first_tile, uint8_t nb_tiles, const uint8_t *data) *)
  set_sprite_data : Z -> Z -> list Z -> machine -> machine;
  (* void set_bkg_tiles(uint8_t x, uint8_t y, uint8_t w, uint8_t h, const uint8_t *tiles) *)
  set_bkg_tiles : Z -> Z -> Z -> Z -> list Z -> machine -> machine;
  (* void set_bkg_submap(uint8_t x, uint8_t y, uint8_t w, uint8_t h, const uint8_t *map, uint8_t map_w) *)
  set_bkg_submap : Z -> Z -> Z -> Z -> list Z -> Z -> machine -> machine
}.

(** What the wrappers below rely on: the tile-map routines read the two
    offset variables and never assign them. *)
Class LibraryFrame (L : Library) : Prop := {
  set_bkg_tiles_map_tile_offset : forall x y w h tiles s,
    _map_tile_offset (set_bkg_tiles x y w h tiles s) = _map_tile_offset s;
  set_bkg_tiles_submap_tile_offset : forall x y w h tiles s,
    _submap_tile_offset (set_bkg_tiles x y w h tiles s) = _submap_tile_offset s;
  set_bkg_submap_map_tile_offset : forall x y w h map map_w s,
    _map_tile_offset (set_bkg_submap x y w h map map_w s) = _map_tile_offset s;
  set_bkg_submap_submap_tile_offset : forall x y w h map map_w s,
    _submap_tile_offset (set_bkg_submap x y w h map map_w s) = _submap_tile_offset s
}.

(** [inline void set_bkg_based_tiles(uint8_t x, uint8_t y, uint8_t w,
       uint8_t h, const uint8_t *tiles, uint8_t base_tile)]:
    [_map_tile_offset = base_tile;
     set_bkg_tiles(x, y, w, h, tiles);
     _map_tile_offset = 0;] *)
Definition set_bkg_based_tiles `{Library} (x y w h : Z) (tiles : list Z)
    (base_tile : Z) (s : machine) : machine :=
  let s := set__map_tile_offset base_tile s in
  let s := set_bkg_tiles x y w h tiles s in
  set__map_tile_offset 0 s.

(** [inline void set_bkg_based_submap(uint8_t x, uint8_t y, uint8_t w,
       uint8_t h, const uint8_t *map, uint8_t map_w, uint8_t base_tile)]:
    [_submap_tile_offset = base_tile;
     set_bkg_submap(x, y, w, h, map, map_w);
     _submap_tile_offset = 0;] *)
Definition set_bkg_based_submap `{Library} (x y w h : Z) (map : list Z)
    (map_w base_tile : Z) (s : machine) : machine :=
  let s := set__submap_tile_offset base_tile s in
  let s := set_bkg_submap x y w h map map_w s in
  set__submap_tile_offset 0 s.

(** [inline void set_native_tile_data(uint16_t first_tile,
       uint8_t nb_tiles, const uint8_t *data)]:
    [if (first_tile < 256) set_bkg_data(first_tile, nb_tiles, data);
     else set_sprite_data(first_tile - 256, nb_tiles, data);]
    The subtraction is done on [uint16_t]; either first argument is then
    converted to the [uint8_t] of the callee's parameter. *)
Definition set_native_tile_data `{Library} (first_tile nb_tiles : Z)
    (data : list Z) (s : machine) : machine :=
  if first_tile <? 256
  then set_bkg_data (to_uint8 first_tile) nb_tiles data s
  else set_sprite_data (to_uint8 (to_uint16 (first_tile - 256))) nb_tiles data s.

(** A program's calls into the tile-map interface, plain or based. *)
Inductive bkg_call : Type :=
| Set_bkg_tiles (x y w h : Z) (tiles : list Z)
| Set_bkg_based_tiles (x y w h : Z) (tiles : list Z) (base_tile : Z)
| Set_bkg_submap (x y w h : Z) (map : list Z) (map_w : Z)
| Set_bkg_based_submap (x y w h : Z) (map : list Z) (map_w base_tile : Z).

Definition run_bkg_call `{Library} (c : bkg_call) (s : machine) : machine :=
  match c with
  | Set_bkg_tiles x y w h tiles => set_bkg_tiles x y w h tiles s
  | Set_bkg_based_tiles x y w h tiles base_tile =>
      set_bkg_based_tiles x y w h tiles base_tile s
  | Set_bkg_submap x y w h map map_w => set_bkg_submap x y w h map map_w s
  | Set_bkg_based_submap x y w h map map_w base_tile =>
      set_bkg_based_submap x y w h map map_w base_tile s
  end.

(** Running a sequence of calls, first call first. *)
Fixpoint run_bkg_calls `{Library} (calls : list bkg_call) (s : machine) : machine :=
  match calls with
  | [] => s
  | c :: calls => run_bkg_calls calls (run_bkg_call c s)
  end.

(** Every call of a sequence paired with the machine it starts from. *)
Fixpoint entry_states `{Library} (calls : list bkg_call) (s : machine)
    : list (bkg_call * machine) :=
  match calls with
  | [] => []
  | c :: calls => (c, s) :: entry_states calls (run_bkg_call c s)
  end.

(** Both tile offsets are zero. *)
Definition offsets_zero (s : machine) : Prop :=
  _map_tile_offset s = 0 /\ _submap_tile_offset s = 0.

(** ** A reference library and a sample machine *)

(** Consecutive bytes written to PPU memory from [addr] on. *)
Fixpoint write_VRAM (addr : Z) (data : list Z) (v : gmap Z Z) : gmap Z Z :=
  match data with
  | [] => v
  | b :: data => write_VRAM (addr + 1) data (<[addr := to_uint8 b]> v)
  end.

(** Address of the entry at column [x], row [y] of the first tile map;
    coordinates past 31 wrap around. *)
Definition tile_map_address (x y : Z) : Z :=
  8192 + 32 * (y mod 32) + x mod 32.

(** A [w] by [h] rectangle of tile-map entries written at [(x, y)]; entry
    [(i, j)] of the rectangle is [src i j] plus [offset]. *)
Definition write_tiles (offset x y w h : Z) (src : Z -> Z -> option Z)
    (v : gmap Z Z) : gmap Z Z :=
  foldl (fun v j =>
    foldl (fun v i =>
      match src i j with
      | Some t => <[tile_map_address (x + i) (y + j) := to_uint8 (t + offset)]> v
      | None => v
      end) v (seqZ 0 w)) v (seqZ 0 h).

(** Modelled from the spec: the bodies of [set_bkg_data],
    [set_sprite_data], [set_bkg_tiles] and [set_bkg_submap] are assembly
    routines outside this header.  Tile data is copied verbatim into the
    pattern tables, 16 bytes per tile; tile-map entries are copied into
    the tile map with the current tile offset added. *)
#[export] Instance reference_library : Library := {
  set_bkg_data first_tile nb_tiles data s :=
    set_VRAM (write_VRAM (4096 + 16 * first_tile)
                (take (Z.to_nat (16 * nb_tiles)) data) (VRAM s)) s;
  set_sprite_data first_tile nb_tiles data s :=
    set_VRAM (write_VRAM (16 * first_tile)
                (take (Z.to_nat (16 * nb_tiles)) data) (VRAM s)) s;
  set_bkg_tiles x y w h tiles s :=
    set_VRAM (write_tiles (_map_tile_offset s) x y w h
                (fun i j => tiles !! Z.to_nat (j * w + i)) (VRAM s)) s;
  set_bkg_submap x y w h map map_w s :=
    set_VRAM (write_tiles (_submap_tile_offset s) x y w h
                (fun i j => map !! Z.to_nat ((y + j) * map_w + (x + i)))
                (VRAM s)) s
}.

(** A machine after start-up: every sprite hidden, DMA disabled, nothing
    in PPU memory; then sprite 3 placed near the right edge. *)
Definition hidden_item : OAM_item_t :=
  {| OAM_item.y := 240; OAM_item.tile := 0; OAM_item.prop := 0; OAM_item.x := 0 |}.

Definition sample_item : OAM_item_t :=
  {| OAM_item.y := 100; OAM_item.tile := 7; OAM_item.prop := 64; OAM_item.x := 250 |}.

Definition sample_machine : machine :=
  {| shadow_OAM := <[3%nat := sample_item]> (replicate 64 hidden_item);
     _shadow_OAM_base := 0;
     _map_tile_offset := 0;
     _submap_tile_offset := 0;
     shadow_PPUCTRL := 0;
     shadow_PPUMASK := 0;
     bkg_scroll_x := 0;
     bkg_scroll_y := 0;
     OAM := replicate 256 0;
     VRAM := ∅ |}.

(** A short program mixing plain and based tile-map calls. *)
Definition sample_calls : list bkg_call :=
  [ Set_bkg_based_tiles 0 0 2 1 [1; 2] 100;
    Set_bkg_tiles 2 0 2 1 [3; 4];
    Set_bkg_based_submap 0 1 2 1 [5; 6; 7; 8] 2 200;
    Set_bkg_submap 0 1 1 1 [9; 10; 11; 12] 2 ].

(** ** Typing of the shadow buffer *)

(** Every member of an entry is a byte. *)
Definition item_typed (itm : OAM_item_t) : Prop :=
  is_uint8 (OAM_item.y itm) /\ is_uint8 (OAM_item.tile itm) /\
  is_uint8 (OAM_item.prop itm) /\ is_uint8 (OAM_item.x itm).

Definition shadow_OAM_typed (s : machine) : Prop :=
  Forall item_typed (shadow_OAM s).

(** ** Background scroll *)

(** Modelled from the spec: [bkg_scroll_x], [bkg_scroll_y],
    [shadow_PPUCTRL] and [shadow_PPUMASK] are declared in
    [nes/hardware.h], which is not among the sources; they are taken as
    [uint8_t], the width of the registers they shadow.  An assignment
    converts the stored value to that type. *)
Definition set_bkg_scroll_x (v : Z) (s : machine) : machine :=
  {| shadow_OAM := shadow_OAM s;
     _shadow_OAM_base := _shadow_OAM_base s;
     _map_tile_offset := _map_tile_offset s;
     _submap_tile_offset := _submap_tile_offset s;
     shadow_PPUCTRL := shadow_PPUCTRL s;
     shadow_PPUMASK := shadow_PPUMASK s;
     bkg_scroll_x := to_uint8 v;
     bkg_scroll_y := bkg_scroll_y s;
     OAM := OAM s;
     VRAM := VRAM s |}.

Definition set_bkg_scroll_y (v : Z) (s : machine) : machine :=
  {| shadow_OAM := shadow_OAM s;
     _shadow_OAM_base := _shadow_OAM_base s;
     _map_tile_offset := _map_tile_offset s;
     _submap_tile_offset := _submap_tile_offset s;
     shadow_PPUCTRL := shadow_PPUCTRL s;
     shadow_PPUMASK := shadow_PPUMASK s;
     bkg_scroll_x := bkg_scroll_x s;
     bkg_scroll_y := to_uint8 v;
     OAM := OAM s;
     VRAM := VRAM s |}.

Definition set_shadow_PPUCTRL (v : Z) (s : machine) : machine :=
  {| shadow_OAM := shadow_OAM s;
     _shadow_OAM_base := _shadow_OAM_base s;
     _map_tile_offset := _map_tile_offset s;
     _submap_tile_offset := _submap_tile_offset s;
     shadow_PPUCTRL := to_uint8 v;
     shadow_PPUMASK := shadow_PPUMASK s;
     bkg_scroll_x := bkg_scroll_x s;
     bkg_scroll_y := bkg_scroll_y s;
     OAM := OAM s;
     VRAM := VRAM s |}.

Definition set_shadow_PPUMASK (v : Z) (s : machine) : machine :=
  {| shadow_OAM := shadow_OAM s;
     _shadow_OAM_base := _shadow_OAM_base s;
     _map_tile_offset := _map_tile_offset s;
     _submap_tile_offset := _submap_tile_offset s;
     shadow_PPUCTRL := shadow_PPUCTRL s;
     shadow_PPUMASK := to_uint8 v;
     bkg_scroll_x := bkg_scroll_x s;
     bkg_scroll_y := bkg_scroll_y s;
     OAM := OAM s;
     VRAM := VRAM s |}.

(** [inline void move_bkg(uint8_t x, uint8_t y)]:
    [bkg_scroll_x = x, bkg_scroll_y = y;] *)
Definition move_bkg (x y : Z) (s : machine) : machine :=
  let s := set_bkg_scroll_x x s in
  set_bkg_scroll_y y s.

(** [inline void scroll_bkg(int8_t x, int8_t y)]:
    [bkg_scroll_x += x, bkg_scroll_y += y;] *)
Definition scroll_bkg (x y : Z) (s : machine) : machine :=
  let s := set_bkg_scroll_x (bkg_scroll_x s + x) s in
  set_bkg_scroll_y (bkg_scroll_y s + y) s.

(** The scroll bytes and the shadow registers hold bytes. *)
Definition registers_typed (s : machine) : Prop :=
  is_uint8 (bkg_scroll_x s) /\ is_uint8 (bkg_scroll_y s) /\
  is_uint8 (shadow_PPUCTRL s) /\ is_uint8 (shadow_PPUMASK s).

(** ** Layer switches *)

(** The bit masks of the PPU registers are defined in [nes/hardware.h];
    the macros below are read against any values for them. *)
Class Hardware : Type := {
  PPUMASK_SHOW_BG : Z;
  PPUMASK_SHOW_SPR : Z;
  PPUMASK_SHOW_BG_LC : Z;
  PPUMASK_SHOW_SPR_LC : Z;
  PPUCTRL_SPR_8X16 : Z
}.

(** [shadow_PPUMASK |= m;] and [shadow_PPUMASK &= ~m;], and the same for
    [shadow_PPUCTRL]: the byte is promoted to [int], combined with the
    mask or with its complement, and stored back. *)
Definition or_shadow_PPUMASK (m : Z) (s : machine) : machine :=
  set_shadow_PPUMASK (Z.lor (shadow_PPUMASK s) m) s.
Definition and_not_shadow_PPUMASK (m : Z) (s : machine) : machine :=
  set_shadow_PPUMASK (Z.land (shadow_PPUMASK s) (Z.lnot m)) s.
Definition or_shadow_PPUCTRL (m : Z) (s : machine) : machine :=
  set_shadow_PPUCTRL (Z.lor (shadow_PPUCTRL s) m) s.
Definition and_not_shadow_PPUCTRL (m : Z) (s : machine) : machine :=
  set_shadow_PPUCTRL (Z.land (shadow_PPUCTRL s) (Z.lnot m)) s.

(** [#define HIDE_LEFT_COLUMN
       shadow_PPUMASK &= ~(PPUMASK_SHOW_BG_LC | PPUMASK_SHOW_SPR_LC);] *)
Definition HIDE_LEFT_COLUMN `{Hardware} (s : machine) : machine :=
  and_not_shadow_PPUMASK (Z.lor PPUMASK_SHOW_BG_LC PPUMASK_SHOW_SPR_LC) s.

(** [#define SHOW_LEFT_COLUMN
       shadow_PPUMASK |= (PPUMASK_SHOW_BG_LC | PPUMASK_SHOW_SPR_LC);] *)
Definition SHOW_LEFT_COLUMN `{Hardware} (s : machine) : machine :=
  or_shadow_PPUMASK (Z.lor PPUMASK_SHOW_BG_LC PPUMASK_SHOW_SPR_LC) s.

(** [#define SHOW_BKG shadow_PPUMASK |= PPUMASK_SHOW_BG;] *)
Definition SHOW_BKG `{Hardware} (s : machine) : machine :=
  or_shadow_PPUMASK PPUMASK_SHOW_BG s.

(** [#define HIDE_BKG shadow_PPUMASK &= ~PPUMASK_SHOW_BG;] *)
Definition HIDE_BKG `{Hardware} (s : machine) : machine :=
  and_not_shadow_PPUMASK PPUMASK_SHOW_BG s.

(** [#define SHOW_SPRITES shadow_PPUMASK |= PPUMASK_SHOW_SPR;] *)
Definition SHOW_SPRITES `{Hardware} (s : machine) : machine :=
  or_shadow_PPUMASK PPUMASK_SHOW_SPR s.

(** [#define HIDE_SPRITES shadow_PPUMASK &= ~PPUMASK_SHOW_SPR;] *)
Definition HIDE_SPRITES `{Hardware} (s : machine) : machine :=
  and_not_shadow_PPUMASK PPUMASK_SHOW_SPR s.

(** [#define SPRITES_8x16 shadow_PPUCTRL |= PPUCTRL_SPR_8X16;] *)
Definition SPRITES_8x16 `{Hardware} (s : machine) : machine :=
  or_shadow_PPUCTRL PPUCTRL_SPR_8X16 s.

(** [#define SPRITES_8x8 shadow_PPUCTRL &= ~PPUCTRL_SPR_8X16;] *)
Definition SPRITES_8x8 `{Hardware} (s : machine) : machine :=
  and_not_shadow_PPUCTRL PPUCTRL_SPR_8X16 s.

(** The switches of [shadow_PPUMASK], as one type. *)
Inductive mask_switch : Type :=
| Hide_left_column | Show_left_column
| Show_bkg | Hide_bkg
| Show_sprites | Hide_sprites.

Definition apply_mask_switch `{Hardware} (m : mask_switch) : machine -> machine :=
  match m with
  | Hide_left_column => HIDE_LEFT_COLUMN
  | Show_left_column => SHOW_LEFT_COLUMN
  | Show_bkg => SHOW_BKG
  | Hide_bkg => HIDE_BKG
  | Show_sprites => SHOW_SPRITES
  | Hide_sprites => HIDE_SPRITES
  end.

(** The mask a switch sets or clears, and whether it sets it. *)
Definition switch_mask `{Hardware} (m : mask_switch) : Z :=
  match m with
  | Hide_left_column | Show_left_column =>
      Z.lor PPUMASK_SHOW_BG_LC PPUMASK_SHOW_SPR_LC
  | Show_bkg | Hide_bkg => PPUMASK_SHOW_BG
  | Show_sprites | Hide_sprites => PPUMASK_SHOW_SPR
  end.

Definition switch_shows (m : mask_switch) : bool :=
  match m with
  | Show_left_column | Show_bkg | Show_sprites => true
  | Hide_left_column | Hide_bkg | Hide_sprites => false
  end.

(** Modelled from the spec: the values of the masks are those of
    [nes/hardware.h], which is not among the sources; the sample below
    uses the bit positions of the PPUMASK and PPUCTRL registers of the
    console (background and sprites in the leftmost column, background,
    sprites; sprite size). *)
#[export] Instance sample_hardware : Hardware := {
  PPUMASK_SHOW_BG := 8;
  PPUMASK_SHOW_SPR := 16;
  PPUMASK_SHOW_BG_LC := 2;
  PPUMASK_SHOW_SPR_LC := 4;
  PPUCTRL_SPR_8X16 := 32
}.

(** ** Colour and palette macros *)

(** [#define RGB(r,g,b) ((r) | ((g) << 2) | ((b) << 4))] *)
Definition RGB (r g b : Z) : Z :=
  Z.lor (Z.lor r (Z.shiftl g 2)) (Z.shiftl b 4).

(** [#define RGB8(r,g,b)
       (((r) >> 6) | (((g) >> 6) << 2) | (((b) >> 6) << 4))] *)
Definition RGB8 (r g b : Z) : Z :=
  Z.lor (Z.lor (Z.shiftr r 6) (Z.shiftl (Z.shiftr g 6) 2))
        (Z.shiftl (Z.shiftr b 6) 4).

(** [#define RGBHTML(RGB24bit) (((RGB24bit) >> 22)
       | ((((RGB24bit) & 0xFFFF) >> 14) << 2)
       | ((((RGB24bit) & 0xFF) >> 6) << 4))] *)
Definition RGBHTML (RGB24bit : Z) : Z :=
  Z.lor (Z.lor (Z.shiftr RGB24bit 22)
               (Z.shiftl (Z.shiftr (Z.land RGB24bit 65535) 14) 2))
        (Z.shiftl (Z.shiftr (Z.land RGB24bit 255) 6) 4).

(** [#define DMG_PALETTE(C0, C1, C2, C3)
       ((uint8_t)((((C3) & 0x03) << 6) | (((C2) & 0x03) << 4)
                  | (((C1) & 0x03) << 2) | ((C0) & 0x03)))] *)
Definition DMG_PALETTE (C0 C1 C2 C3 : Z) : Z :=
  to_uint8
    (Z.lor (Z.lor (Z.lor (Z.shiftl (Z.land C3 3) 6) (Z.shiftl (Z.land C2 3) 4))
                  (Z.shiftl (Z.land C1 3) 2))
           (Z.land C0 3)).

(** [#define COMPAT_PALETTE(C0,C1,C2,C3)
       ((uint8_t)(((C3) << 6) | ((C2) << 4) | ((C1) << 2) | (C0)))] *)
Definition COMPAT_PALETTE (C0 C1 C2 C3 : Z) : Z :=
  to_uint8
    (Z.lor (Z.lor (Z.lor (Z.shiftl C3 6) (Z.shiftl C2 4)) (Z.shiftl C1 2)) C0).

(** A component of a colour or a palette: a value of two bits. *)
Definition is_2bit (z : Z) : Prop := 0 <= z <= 3.

(** ** Joypad bits *)

Definition J_UP : Z := 16.
Definition J_DOWN : Z := 32.
Definition J_LEFT : Z := 64.
Definition J_RIGHT : Z := 128.
Definition J_A : Z := 1.
Definition J_B : Z := 2.
Definition J_SELECT : Z := 4.
Definition J_START : Z := 8.

(** ** Facts about the integer conversions and the table *)

Lemma to_uint8_id (z : Z) : is_uint8 z -> to_uint8 z = z.
Proof. unfold is_uint8, to_uint8. intros Hz. apply Z.mod_small. lia. Qed.

Lemma to_uint16_id (z : Z) : is_uint16 z -> to_uint16 z = z.
Proof. unfold is_uint16, to_uint16. intros Hz. apply Z.mod_small. lia. Qed.

Lemma to_uint8_range (z : Z) : is_uint8 (to_uint8 z).
Proof. unfold is_uint8, to_uint8. apply Z.mod_pos_bound. lia. Qed.

Lemma sprite_index_id (nb : Z) : is_uint8 nb -> sprite_index nb = Z.to_nat nb.
Proof. intros Hnb. unfold sprite_index. by rewrite (to_uint8_id nb Hnb). Qed.

Lemma sprite_number_is_uint8 (nb : Z) : 0 <= nb <= 63 -> is_uint8 nb.
Proof. unfold is_uint8. lia. Qed.

Lemma sprite_in_table (s : machine) (nb : Z) :
  shadow_OAM_sized s -> 0 <= nb <= 63 ->
  (Z.to_nat nb < length (shadow_OAM s))%nat.
Proof. unfold shadow_OAM_sized, MAX_HARDWARE_SPRITES. lia. Qed.

Lemma sprite_lookup (s : machine) (nb : Z) :
  shadow_OAM_sized s -> 0 <= nb <= 63 ->
  exists itm, shadow_OAM s !! Z.to_nat nb = Some itm.
Proof.
  intros Hsz Hnb. apply lookup_lt_is_Some_2. by apply sprite_in_table.
Qed.

(** An update of an entry that exists succeeds, and the entry then holds
    the changed record. *)
Lemma update_shadow_OAM_Some (s : machine) (nb : Z) (itm : OAM_item_t)
    (f : OAM_item_t -> OAM_item_t) :
  is_uint8 nb ->
  shadow_OAM s !! Z.to_nat nb = Some itm ->
  exists s', update_shadow_OAM nb f s = Some s' /\
    shadow_OAM s' = <[Z.to_nat nb := f itm]> (shadow_OAM s) /\
    shadow_OAM s' !! Z.to_nat nb = Some (f itm).
Proof.
  intros Hu8 Hitm. unfold update_shadow_OAM.
  rewrite (sprite_index_id nb Hu8), Hitm. simpl.
  eexists. split; [reflexivity|]. split; [reflexivity|]. simpl.
  apply list_lookup_insert_eq. by eapply lookup_lt_Some.
Qed.

(** ** Round trips through the shadow buffer *)

(** C2: for every sprite number in [0,63] and every byte [t],
    [set_sprite_tile] followed by [get_sprite_tile] on the resulting
    machine returns exactly [t]. *)
Theorem get_sprite_tile_set_sprite_tile (s : machine) (nb t : Z) :
  shadow_OAM_sized s -> 0 <= nb <= 63 -> is_uint8 t ->
  exists s', set_sprite_tile nb t s = Some s' /\
    get_sprite_tile nb s' = Some t.
Proof.
  intros Hsz Hnb Ht.
  destruct (sprite_lookup s nb Hsz Hnb) as [itm Hitm].
  pose proof (sprite_number_is_uint8 nb Hnb) as Hu8.
  destruct (update_shadow_OAM_Some s nb itm (OAM_item.set_tile t) Hu8 Hitm)
    as (s' & Hs' & _ & Hnew).
  exists s'. split; [exact Hs'|].
  unfold get_sprite_tile. rewrite (sprite_index_id nb Hu8), Hnew. simpl.
  f_equal. by apply to_uint8_id.
Qed.

Lemma get_sprite_tile_set_sprite_tile_witness :
  exists s', set_sprite_tile 3 200 sample_machine = Some s' /\
    get_sprite_tile 3 s' = Some 200.
Proof.
  apply (get_sprite_tile_set_sprite_tile sample_machine 3 200);
    [reflexivity | lia | unfold is_uint8; lia].
Defined.

(** C7: for every sprite number in [0,63] and every byte [flags],
    [set_sprite_prop] stores [flags] unchanged in the entry's property
    member and [get_sprite_prop] then returns exactly [flags]. *)
Theorem get_sprite_prop_set_sprite_prop (s : machine) (nb flags : Z) :
  shadow_OAM_sized s -> 0 <= nb <= 63 -> is_uint8 flags ->
  exists s' itm', set_sprite_prop nb flags s = Some s' /\
    shadow_OAM s' !! Z.to_nat nb = Some itm' /\
    OAM_item.prop itm' = flags /\
    get_sprite_prop nb s' = Some flags.
Proof.
  intros Hsz Hnb Hf.
  destruct (sprite_lookup s nb Hsz Hnb) as [itm Hitm].
  pose proof (sprite_number_is_uint8 nb Hnb) as Hu8.
  destruct (update_shadow_OAM_Some s nb itm (OAM_item.set_prop flags) Hu8 Hitm)
    as (s' & Hs' & _ & Hnew).
  exists s', (OAM_item.set_prop flags itm).
  split; [exact Hs'|]. split; [exact Hnew|].
  unfold get_sprite_prop. rewrite (sprite_index_id nb Hu8), Hnew. simpl.
  rewrite (to_uint8_id flags Hf).
  by split.
Qed.

Lemma get_sprite_prop_set_sprite_prop_witness :
  exists s' itm', set_sprite_prop 63 255 sample_machine = Some s' /\
    shadow_OAM s' !! Z.to_nat 63 = Some itm' /\
    OAM_item.prop itm' = 255 /\
    get_sprite_prop 63 s' = Some 255.
Proof.
  apply (get_sprite_prop_set_sprite_prop sample_machine 63 255);
    [reflexivity | lia | unfold is_uint8; lia].
Defined.

(** ** Placement *)

(** C6: for every sprite number in [0,63] and all bytes [x], [y],
    [move_sprite] leaves the entry's horizontal position equal to [x] and
    its vertical position equal to [y], whatever they were before, and
    leaves the entry's tile and property members as they were. *)
Theorem move_sprite_absolute (s : machine) (nb x y : Z) :
  shadow_OAM_sized s -> 0 <= nb <= 63 -> is_uint8 x -> is_uint8 y ->
  exists itm s' itm', shadow_OAM s !! Z.to_nat nb = Some itm /\
    move_sprite nb x y s = Some s' /\
    shadow_OAM s' !! Z.to_nat nb = Some itm' /\
    OAM_item.x itm' = x /\ OAM_item.y itm' = y /\
    OAM_item.tile itm' = OAM_item.tile itm /\
    OAM_item.prop itm' = OAM_item.prop itm.
Proof.
  intros Hsz Hnb Hx Hy.
  destruct (sprite_lookup s nb Hsz Hnb) as [itm Hitm].
  pose proof (sprite_number_is_uint8 nb Hnb) as Hu8.
  destruct (update_shadow_OAM_Some s nb itm
              (fun itm => OAM_item.set_x x (OAM_item.set_y y itm)) Hu8 Hitm)
    as (s' & Hs' & _ & Hnew).
  exists itm, s', (OAM_item.set_x x (OAM_item.set_y y itm)).
  split; [exact Hitm|]. split; [exact Hs'|]. split; [exact Hnew|].
  simpl. rewrite (to_uint8_id x Hx), (to_uint8_id y Hy). done.
Qed.

Lemma move_sprite_absolute_witness :
  exists itm s' itm', shadow_OAM sample_machine !! Z.to_nat 3 = Some itm /\
    move_sprite 3 16 32 sample_machine = Some s' /\
    shadow_OAM s' !! Z.to_nat 3 = Some itm' /\
    OAM_item.x itm' = 16 /\ OAM_item.y itm' = 32 /\
    OAM_item.tile itm' = OAM_item.tile itm /\
    OAM_item.prop itm' = OAM_item.prop itm.
Proof.
  apply (move_sprite_absolute sample_machine 3 16 32);
    [reflexivity | lia | unfold is_uint8; lia | unfold is_uint8; lia].
Defined.

(** C3: for every sprite number in [0,63], every entry whose position
    [(x, y)] is a pair of bytes and every pair of signed deltas in
    [-128,127], [scroll_sprite] leaves the horizontal position equal to
    [(x + dx) mod 256] and the vertical position equal to
    [(y + dy) mod 256]. *)
Theorem scroll_sprite_wraps (s : machine) (nb dx dy : Z) (itm : OAM_item_t) :
  shadow_OAM_sized s -> 0 <= nb <= 63 ->
  shadow_OAM s !! Z.to_nat nb = Some itm ->
  is_uint8 (OAM_item.x itm) -> is_uint8 (OAM_item.y itm) ->
  is_int8 dx -> is_int8 dy ->
  exists s' itm', scroll_sprite nb dx dy s = Some s' /\
    shadow_OAM s' !! Z.to_nat nb = Some itm' /\
    OAM_item.x itm' = (OAM_item.x itm + dx) mod 256 /\
    OAM_item.y itm' = (OAM_item.y itm + dy) mod 256.
Proof.
  intros _ Hnb Hitm _ _ _ _.
  pose proof (sprite_number_is_uint8 nb Hnb) as Hu8.
  destruct (update_shadow_OAM_Some s nb itm
              (fun itm =>
                 let itm := OAM_item.set_y (OAM_item.y itm + dy) itm in
                 OAM_item.set_x (OAM_item.x itm + dx) itm) Hu8 Hitm)
    as (s' & Hs' & _ & Hnew).
  eexists s', _. split; [exact Hs'|]. split; [exact Hnew|].
  simpl. unfold to_uint8. done.
Qed.

Lemma scroll_sprite_wraps_witness :
  exists s' itm', scroll_sprite 3 10 (-128) sample_machine = Some s' /\
    shadow_OAM s' !! Z.to_nat 3 = Some itm' /\
    OAM_item.x itm' = (OAM_item.x sample_item + 10) mod 256 /\
    OAM_item.y itm' = (OAM_item.y sample_item + -128) mod 256.
Proof.
  apply (scroll_sprite_wraps sample_machine 3 10 (-128) sample_item);
    [reflexivity | lia | reflexivity | | | | ];
    (unfold is_uint8, is_int8; simpl; lia).
Defined.

Example scroll_sprite_past_right_edge :
  (scroll_sprite 3 10 (-128) sample_machine ≫= λ s, shadow_OAM s !! 3%nat)
  = Some {| OAM_item.y := 228; OAM_item.tile := 7;
            OAM_item.prop := 64; OAM_item.x := 4 |}.
Proof. reflexivity. Qed.

(** ** Hiding *)

(** C4: for every sprite number in [0,63], [hide_sprite] sets the
    vertical position of the entry to 240 and leaves its tile, property
    and horizontal-position members as they were; [get_sprite_prop]
    after the call returns the property value held before it. *)
Theorem hide_sprite_only_y (s : machine) (nb : Z) :
  shadow_OAM_sized s -> 0 <= nb <= 63 ->
  exists itm s' itm', shadow_OAM s !! Z.to_nat nb = Some itm /\
    hide_sprite nb s = Some s' /\
    shadow_OAM s' !! Z.to_nat nb = Some itm' /\
    OAM_item.y itm' = 240 /\
    OAM_item.tile itm' = OAM_item.tile itm /\
    OAM_item.prop itm' = OAM_item.prop itm /\
    OAM_item.x itm' = OAM_item.x itm /\
    get_sprite_prop nb s' = get_sprite_prop nb s /\
    get_sprite_prop nb s' = Some (OAM_item.prop itm).
Proof.
  intros Hsz Hnb.
  destruct (sprite_lookup s nb Hsz Hnb) as [itm Hitm].
  pose proof (sprite_number_is_uint8 nb Hnb) as Hu8.
  destruct (update_shadow_OAM_Some s nb itm (OAM_item.set_y 240) Hu8 Hitm)
    as (s' & Hs' & _ & Hnew).
  exists itm, s', (OAM_item.set_y 240 itm).
  split; [exact Hitm|]. split; [exact Hs'|]. split; [exact Hnew|].
  unfold get_sprite_prop. rewrite (sprite_index_id nb Hu8), Hnew, Hitm. simpl. done.
Qed.

Lemma hide_sprite_only_y_witness :
  exists itm s' itm', shadow_OAM sample_machine !! Z.to_nat 3 = Some itm /\
    hide_sprite 3 sample_machine = Some s' /\
    shadow_OAM s' !! Z.to_nat 3 = Some itm' /\
    OAM_item.y itm' = 240 /\
    OAM_item.tile itm' = OAM_item.tile itm /\
    OAM_item.prop itm' = OAM_item.prop itm /\
    OAM_item.x itm' = OAM_item.x itm /\
    get_sprite_prop 3 s' = get_sprite_prop 3 sample_machine /\
    get_sprite_prop 3 s' = Some (OAM_item.prop itm).
Proof.
  apply (hide_sprite_only_y sample_machine 3); [reflexivity | lia].
Defined.

(** ** Footprint of the mutators *)

(** An update of entry [nb] leaves every other entry and every other
    global of the machine as it was. *)
Lemma update_shadow_OAM_frame (s s' : machine) (nb : Z)
    (f : OAM_item_t -> OAM_item_t) :
  is_uint8 nb ->
  update_shadow_OAM nb f s = Some s' ->
  (forall j : nat, j <> Z.to_nat nb -> shadow_OAM s' !! j = shadow_OAM s !! j) /\
  length (shadow_OAM s') = length (shadow_OAM s) /\
  _shadow_OAM_base s' = _shadow_OAM_base s /\
  _map_tile_offset s' = _map_tile_offset s /\
  _submap_tile_offset s' = _submap_tile_offset s /\
  shadow_PPUCTRL s' = shadow_PPUCTRL s /\
  shadow_PPUMASK s' = shadow_PPUMASK s /\
  bkg_scroll_x s' = bkg_scroll_x s /\
  bkg_scroll_y s' = bkg_scroll_y s /\
  OAM s' = OAM s /\
  VRAM s' = VRAM s.
Proof.
  unfold update_shadow_OAM. intros Hu8 Hup.
  rewrite (sprite_index_id nb Hu8) in Hup.
  destruct (shadow_OAM s !! Z.to_nat nb) as [itm|] eqn:Hitm; [|discriminate].
  simpl in Hup. injection Hup as <-. simpl.
  split.
  - intros j Hj. by apply list_lookup_insert_ne.
  - split; [apply length_insert|]. repeat split.
Qed.

(** C5: each of [set_sprite_tile], [set_sprite_prop], [move_sprite],
    [scroll_sprite] and [hide_sprite], applied to a sprite number [nb] in
    [0,63], changes nothing but entry [nb] of the shadow OAM: every other
    entry, [_shadow_OAM_base], the other globals and the memories of the
    PPU are as before the call. *)
Theorem mutators_touch_one_entry (m : mutator) (nb : Z) (s : machine) :
  shadow_OAM_sized s -> 0 <= nb <= 63 -> mutator_typed m ->
  exists s', apply_mutator m nb s = Some s' /\
    (forall j : nat, j <> Z.to_nat nb ->
       shadow_OAM s' !! j = shadow_OAM s !! j) /\
    length (shadow_OAM s') = length (shadow_OAM s) /\
    _shadow_OAM_base s' = _shadow_OAM_base s /\
    _map_tile_offset s' = _map_tile_offset s /\
    _submap_tile_offset s' = _submap_tile_offset s /\
    shadow_PPUCTRL s' = shadow_PPUCTRL s /\
    shadow_PPUMASK s' = shadow_PPUMASK s /\
    bkg_scroll_x s' = bkg_scroll_x s /\
    bkg_scroll_y s' = bkg_scroll_y s /\
    OAM s' = OAM s /\
    VRAM s' = VRAM s.
Proof.
  intros Hsz Hnb _.
  destruct (sprite_lookup s nb Hsz Hnb) as [itm Hitm].
  pose proof (sprite_number_is_uint8 nb Hnb) as Hu8.
  assert (Hall : forall f, exists s', update_shadow_OAM nb f s = Some s').
  { intros f. destruct (update_shadow_OAM_Some s nb itm f Hu8 Hitm) as (s' & Hs' & _).
    by exists s'. }
  destruct m as [tile|prop|x y|x y|]; simpl;
    unfold set_sprite_tile, set_sprite_prop, move_sprite, scroll_sprite,
      hide_sprite;
    match goal with
    | |- exists s', update_shadow_OAM nb ?f s = Some s' /\ _ =>
        destruct (Hall f) as [s' Hs']; exists s'; split; [exact Hs'|];
        exact (update_shadow_OAM_frame s s' nb f Hu8 Hs')
    end.
Qed.

Lemma mutators_touch_one_entry_witness :
  exists s', apply_mutator (Scroll_sprite 10 (-3)) 3 sample_machine = Some s' /\
    (forall j : nat, j <> Z.to_nat 3 ->
       shadow_OAM s' !! j = shadow_OAM sample_machine !! j) /\
    length (shadow_OAM s') = length (shadow_OAM sample_machine) /\
    _shadow_OAM_base s' = _shadow_OAM_base sample_machine /\
    _map_tile_offset s' = _map_tile_offset sample_machine /\
    _submap_tile_offset s' = _submap_tile_offset sample_machine /\
    shadow_PPUCTRL s' = shadow_PPUCTRL sample_machine /\
    shadow_PPUMASK s' = shadow_PPUMASK sample_machine /\
    bkg_scroll_x s' = bkg_scroll_x sample_machine /\
    bkg_scroll_y s' = bkg_scroll_y sample_machine /\
    OAM s' = OAM sample_machine /\
    VRAM s' = VRAM sample_machine.
Proof.
  apply (mutators_touch_one_entry (Scroll_sprite 10 (-3)) 3 sample_machine);
    [reflexivity | lia | unfold mutator_typed, is_int8; lia].
Defined.

(** ** The DMA source byte *)

(** High byte of a 16-bit value, as shift and division. *)
Lemma high_byte_shiftr (p : Z) :
  is_uint16 p -> to_uint8 (Z.shiftr (to_uint16 p) 8) = p / 256.
Proof.
  intros Hp. rewrite (to_uint16_id p Hp), Z.shiftr_div_pow2 by lia.
  change (2 ^ 8) with 256. apply to_uint8_id. unfold is_uint16 in Hp.
  unfold is_uint8. split.
  - apply Z.div_pos; lia.
  - apply Z.div_lt_upper_bound; lia.
Qed.

Lemma SET_SHADOW_OAM_ADDRESS_base (p : Z) (s : machine) :
  is_uint16 p -> _shadow_OAM_base (SET_SHADOW_OAM_ADDRESS p s) = p / 256.
Proof.
  intros Hp. unfold SET_SHADOW_OAM_ADDRESS. simpl.
  rewrite (high_byte_shiftr p Hp). apply to_uint8_id.
  rewrite <- (high_byte_shiftr p Hp). apply to_uint8_range.
Qed.

Lemma ENABLE_OAM_DMA_base (a : Z) (s : machine) :
  is_uint16 a -> _shadow_OAM_base (ENABLE_OAM_DMA a s) = a / 256.
Proof. exact (SET_SHADOW_OAM_ADDRESS_base a s). Qed.

(** C8: [SET_SHADOW_OAM_ADDRESS] moves only the high byte of its pointer
    into [_shadow_OAM_base]: the byte equals the high byte of [p], two
    pointers with the same high byte leave the same machine, and for a
    pointer whose low byte is zero the byte times 256 is [p] again. *)
Theorem SET_SHADOW_OAM_ADDRESS_high_byte (p : Z) (s : machine) :
  is_uint16 p ->
  _shadow_OAM_base (SET_SHADOW_OAM_ADDRESS p s) = p / 256 /\
  _shadow_OAM_base (SET_SHADOW_OAM_ADDRESS p s) = Z.land (Z.shiftr p 8) 255 /\
  (forall q, is_uint16 q -> q / 256 = p / 256 ->
     SET_SHADOW_OAM_ADDRESS q s = SET_SHADOW_OAM_ADDRESS p s) /\
  (p mod 256 = 0 ->
     256 * _shadow_OAM_base (SET_SHADOW_OAM_ADDRESS p s) = p).
Proof.
  intros Hp. rewrite (SET_SHADOW_OAM_ADDRESS_base p s Hp).
  split; [reflexivity|]. split; [|split].
  - rewrite Z.shiftr_div_pow2 by lia. change 255 with (Z.ones 8).
    rewrite Z.land_ones by lia. change (2 ^ 8) with 256.
    symmetry. apply Z.mod_small. unfold is_uint16 in Hp. split.
    + apply Z.div_pos; lia.
    + apply Z.div_lt_upper_bound; lia.
  - intros q Hq Hqp. unfold SET_SHADOW_OAM_ADDRESS.
    by rewrite (high_byte_shiftr q Hq), (high_byte_shiftr p Hp), Hqp.
  - intros Hlow. pose proof (Z.div_mod p 256). lia.
Qed.

Lemma SET_SHADOW_OAM_ADDRESS_high_byte_witness :
  _shadow_OAM_base (SET_SHADOW_OAM_ADDRESS 768 sample_machine) = 768 / 256 /\
  _shadow_OAM_base (SET_SHADOW_OAM_ADDRESS 768 sample_machine)
    = Z.land (Z.shiftr 768 8) 255 /\
  (forall q, is_uint16 q -> q / 256 = 768 / 256 ->
     SET_SHADOW_OAM_ADDRESS q sample_machine
     = SET_SHADOW_OAM_ADDRESS 768 sample_machine) /\
  (768 mod 256 = 0 ->
     256 * _shadow_OAM_base (SET_SHADOW_OAM_ADDRESS 768 sample_machine) = 768).
Proof.
  apply (SET_SHADOW_OAM_ADDRESS_high_byte 768 sample_machine).
  unfold is_uint16. lia.
Defined.

Example SET_SHADOW_OAM_ADDRESS_unaligned :
  SET_SHADOW_OAM_ADDRESS 837 sample_machine
  = SET_SHADOW_OAM_ADDRESS 768 sample_machine.
Proof. reflexivity. Qed.

(** C1 does not hold as stated: with [shadow_OAM] linked at 0x0200 and a
    second, aligned buffer at 0x0300, selecting the second buffer and
    then enabling the transfer leaves the byte at 2, the default buffer,
    not the one selected. *)
Lemma ENABLE_VBL_TRANSFER_forgets_buffer :
  768 mod 256 = 0 /\
  _shadow_OAM_base (SET_SHADOW_OAM_ADDRESS 768 sample_machine) = 3 /\
  _shadow_OAM_base
    (ENABLE_VBL_TRANSFER 512 (SET_SHADOW_OAM_ADDRESS 768 sample_machine)) = 2 /\
  256 * _shadow_OAM_base
    (ENABLE_VBL_TRANSFER 512 (SET_SHADOW_OAM_ADDRESS 768 sample_machine)) <> 768.
Proof. repeat split. discriminate. Qed.

(** C1 (amended): for 256-byte-aligned [p], [SET_SHADOW_OAM_ADDRESS p]
    alone leaves [_shadow_OAM_base] identifying buffer [p]; a following
    [ENABLE_VBL_TRANSFER] overwrites the byte with the high byte of the
    address of the default [shadow_OAM] array, so after the two calls the
    byte identifies the default buffer whatever [p] was. *)
Theorem ENABLE_VBL_TRANSFER_selects_default_buffer (a p : Z) (s : machine) :
  is_uint16 a -> a mod 256 = 0 -> is_uint16 p -> p mod 256 = 0 ->
  256 * _shadow_OAM_base (SET_SHADOW_OAM_ADDRESS p s) = p /\
  256 * _shadow_OAM_base
    (ENABLE_VBL_TRANSFER a (SET_SHADOW_OAM_ADDRESS p s)) = a /\
  ENABLE_VBL_TRANSFER a (SET_SHADOW_OAM_ADDRESS p s) = ENABLE_VBL_TRANSFER a s.
Proof.
  intros Ha Hla Hp Hlp. unfold ENABLE_VBL_TRANSFER.
  rewrite (SET_SHADOW_OAM_ADDRESS_base p s Hp), (ENABLE_OAM_DMA_base a _ Ha).
  pose proof (Z.div_mod p 256). pose proof (Z.div_mod a 256).
  split; [lia|]. split; [lia|]. reflexivity.
Qed.

Lemma ENABLE_VBL_TRANSFER_selects_default_buffer_witness :
  256 * _shadow_OAM_base (SET_SHADOW_OAM_ADDRESS 768 sample_machine) = 768 /\
  256 * _shadow_OAM_base
    (ENABLE_VBL_TRANSFER 512 (SET_SHADOW_OAM_ADDRESS 768 sample_machine)) = 512 /\
  ENABLE_VBL_TRANSFER 512 (SET_SHADOW_OAM_ADDRESS 768 sample_machine)
  = ENABLE_VBL_TRANSFER 512 sample_machine.
Proof.
  apply (ENABLE_VBL_TRANSFER_selects_default_buffer 512 768 sample_machine);
    [unfold is_uint16; lia | reflexivity | unfold is_uint16; lia | reflexivity].
Defined.

(** ** Wrappers around the tile routines *)

(** C9: [set_native_tile_data] is [set_bkg_data] with the same arguments
    when [first_tile < 256], and [set_sprite_data] with first tile
    [first_tile - 256] (as converted to the callee's [uint8_t]; unchanged
    up to 511) when [first_tile >= 256]; [first_tile = 256] writes sprite
    tile 0. *)
Theorem set_native_tile_data_dispatch `{L : Library}
    (first_tile nb_tiles : Z) (data : list Z) (s : machine) :
  is_uint16 first_tile ->
  (first_tile < 256 ->
     set_native_tile_data first_tile nb_tiles data s
     = set_bkg_data first_tile nb_tiles data s) /\
  (256 <= first_tile ->
     set_native_tile_data first_tile nb_tiles data s
     = set_sprite_data (to_uint8 (first_tile - 256)) nb_tiles data s) /\
  (256 <= first_tile <= 511 ->
     set_native_tile_data first_tile nb_tiles data s
     = set_sprite_data (first_tile - 256) nb_tiles data s) /\
  set_native_tile_data 256 nb_tiles data s
  = set_sprite_data 0 nb_tiles data s.
Proof.
  intros Hft. unfold set_native_tile_data, is_uint16 in *.
  split; [|split; [|split]].
  - intros Hlt. destruct (Z.ltb_spec first_tile 256); [|lia].
    rewrite to_uint8_id; [reflexivity | unfold is_uint8; lia].
  - intros Hge. destruct (Z.ltb_spec first_tile 256); [lia|].
    rewrite to_uint16_id; [reflexivity | unfold is_uint16; lia].
  - intros Hge. destruct (Z.ltb_spec first_tile 256); [lia|].
    rewrite to_uint16_id by (unfold is_uint16; lia).
    rewrite to_uint8_id; [reflexivity | unfold is_uint8; lia].
  - reflexivity.
Qed.

Lemma set_native_tile_data_dispatch_witness :
  (300 < 256 ->
     set_native_tile_data 300 1 [1; 2; 3] sample_machine
     = set_bkg_data 300 1 [1; 2; 3] sample_machine) /\
  (256 <= 300 ->
     set_native_tile_data 300 1 [1; 2; 3] sample_machine
     = set_sprite_data (to_uint8 (300 - 256)) 1 [1; 2; 3] sample_machine) /\
  (256 <= 300 <= 511 ->
     set_native_tile_data 300 1 [1; 2; 3] sample_machine
     = set_sprite_data (300 - 256) 1 [1; 2; 3] sample_machine) /\
  set_native_tile_data 256 1 [1; 2; 3] sample_machine
  = set_sprite_data 0 1 [1; 2; 3] sample_machine.
Proof.
  apply (@set_native_tile_data_dispatch reference_library 300 1 [1; 2; 3]
           sample_machine).
  unfold is_uint16. lia.
Defined.

Example set_native_tile_data_boundary :
  VRAM (set_native_tile_data 256 1 [1; 2; 3] sample_machine) !! 0 = Some 1 /\
  VRAM (set_native_tile_data 255 1 [1; 2; 3] sample_machine) !! 0 = None /\
  VRAM (set_native_tile_data 255 1 [1; 2; 3] sample_machine) !! (4096 + 16 * 255)
  = Some 1.
Proof. vm_compute. done. Qed.

(** ** The tile offsets *)

#[export] Instance reference_library_frame : LibraryFrame reference_library.
Proof. split; reflexivity. Qed.

Lemma set_bkg_based_tiles_offsets `{L : Library} `{!LibraryFrame L}
    (x y w h : Z) (tiles : list Z) (base_tile : Z) (s : machine) :
  _map_tile_offset (set_bkg_based_tiles x y w h tiles base_tile s) = 0 /\
  _submap_tile_offset (set_bkg_based_tiles x y w h tiles base_tile s)
  = _submap_tile_offset s.
Proof.
  unfold set_bkg_based_tiles. simpl. split; [reflexivity|].
  by rewrite set_bkg_tiles_submap_tile_offset.
Qed.

Lemma set_bkg_based_submap_offsets `{L : Library} `{!LibraryFrame L}
    (x y w h : Z) (map : list Z) (map_w base_tile : Z) (s : machine) :
  _map_tile_offset (set_bkg_based_submap x y w h map map_w base_tile s)
  = _map_tile_offset s /\
  _submap_tile_offset (set_bkg_based_submap x y w h map map_w base_tile s) = 0.
Proof.
  unfold set_bkg_based_submap. simpl. split; [|reflexivity].
  by rewrite set_bkg_submap_map_tile_offset.
Qed.

(** Zero offsets are an invariant of every call of the interface. *)
Lemma run_bkg_call_offsets_zero `{L : Library} `{!LibraryFrame L}
    (c : bkg_call) (s : machine) :
  offsets_zero s -> offsets_zero (run_bkg_call c s).
Proof.
  unfold offsets_zero. intros [Hm Hs].
  destruct c as [x y w h t|x y w h t b|x y w h m mw|x y w h m mw b];
    unfold run_bkg_call.
  - by rewrite set_bkg_tiles_map_tile_offset, set_bkg_tiles_submap_tile_offset.
  - destruct (set_bkg_based_tiles_offsets x y w h t b s) as [-> ->]. done.
  - by rewrite set_bkg_submap_map_tile_offset, set_bkg_submap_submap_tile_offset.
  - destruct (set_bkg_based_submap_offsets x y w h m mw b s) as [-> ->]. done.
Qed.

Lemma run_bkg_calls_offsets_zero `{L : Library} `{!LibraryFrame L}
    (calls : list bkg_call) (s : machine) :
  offsets_zero s -> offsets_zero (run_bkg_calls calls s).
Proof.
  revert s. induction calls as [|c calls IH]; intros s Hs; simpl; [done|].
  apply IH. by apply run_bkg_call_offsets_zero.
Qed.

Lemma entry_states_offsets_zero `{L : Library} `{!LibraryFrame L}
    (calls : list bkg_call) (s : machine) :
  offsets_zero s ->
  forall c s_c, (c, s_c) ∈ entry_states calls s -> offsets_zero s_c.
Proof.
  revert s. induction calls as [|c0 calls IH]; intros s Hs c s_c Hin; simpl in Hin.
  - by apply not_elem_of_nil in Hin.
  - apply elem_of_cons in Hin as [Heq|Hin].
    + by injection Heq as -> ->.
    + eapply IH; [|exact Hin]. by apply run_bkg_call_offsets_zero.
Qed.

(** C10: [set_bkg_based_tiles] holds [_map_tile_offset] at [base_tile]
    exactly for its inner [set_bkg_tiles] call and leaves it at 0, and
    [set_bkg_based_submap] does the same with [_submap_tile_offset]
    around [set_bkg_submap]; hence, from a machine with both offsets at
    0, either function returns with both offsets at 0, any sequence of
    plain and based calls ends with both at 0, and every call of the
    sequence, the plain ones included, starts with both at 0.  The
    library routines are taken not to assign the two variables. *)
Theorem tile_offsets_zero_outside_based_calls `{L : Library} `{!LibraryFrame L}
    (x y w h : Z) (tiles map : list Z) (map_w base_tile : Z)
    (calls : list bkg_call) (s : machine) :
  is_uint8 base_tile -> offsets_zero s ->
  (set_bkg_based_tiles x y w h tiles base_tile s
   = set__map_tile_offset 0
       (set_bkg_tiles x y w h tiles (set__map_tile_offset base_tile s)) /\
   _map_tile_offset (set__map_tile_offset base_tile s) = base_tile /\
   offsets_zero (set_bkg_based_tiles x y w h tiles base_tile s)) /\
  (set_bkg_based_submap x y w h map map_w base_tile s
   = set__submap_tile_offset 0
       (set_bkg_submap x y w h map map_w
          (set__submap_tile_offset base_tile s)) /\
   _submap_tile_offset (set__submap_tile_offset base_tile s) = base_tile /\
   offsets_zero (set_bkg_based_submap x y w h map map_w base_tile s)) /\
  offsets_zero (run_bkg_calls calls s) /\
  (forall c s_c, (c, s_c) ∈ entry_states calls s -> offsets_zero s_c).
Proof.
  intros Hb Hs. split; [|split; [|split]].
  - split; [reflexivity|]. split; [simpl; by apply to_uint8_id|].
    exact (run_bkg_call_offsets_zero
             (Set_bkg_based_tiles x y w h tiles base_tile) s Hs).
  - split; [reflexivity|]. split; [simpl; by apply to_uint8_id|].
    exact (run_bkg_call_offsets_zero
             (Set_bkg_based_submap x y w h map map_w base_tile) s Hs).
  - by apply run_bkg_calls_offsets_zero.
  - by apply entry_states_offsets_zero.
Qed.

Lemma tile_offsets_zero_outside_based_calls_witness :
  (set_bkg_based_tiles 0 0 2 1 [1; 2] 100 sample_machine
   = set__map_tile_offset 0
       (set_bkg_tiles 0 0 2 1 [1; 2] (set__map_tile_offset 100 sample_machine)) /\
   _map_tile_offset (set__map_tile_offset 100 sample_machine) = 100 /\
   offsets_zero (set_bkg_based_tiles 0 0 2 1 [1; 2] 100 sample_machine)) /\
  (set_bkg_based_submap 0 0 2 1 [5; 6; 7; 8] 2 100 sample_machine
   = set__submap_tile_offset 0
       (set_bkg_submap 0 0 2 1 [5; 6; 7; 8] 2
          (set__submap_tile_offset 100 sample_machine)) /\
   _submap_tile_offset (set__submap_tile_offset 100 sample_machine) = 100 /\
   offsets_zero (set_bkg_based_submap 0 0 2 1 [5; 6; 7; 8] 2 100 sample_machine)) /\
  offsets_zero (run_bkg_calls sample_calls sample_machine) /\
  (forall c s_c, (c, s_c) ∈ entry_states sample_calls sample_machine ->
     offsets_zero s_c).
Proof.
  apply (@tile_offsets_zero_outside_based_calls reference_library
           reference_library_frame 0 0 2 1 [1; 2] [5; 6; 7; 8] 2 100
           sample_calls sample_machine);
    [unfold is_uint8; lia | split; reflexivity].
Defined.

(** The based calls of [sample_calls] write their entries with the base
    added; the plain calls that follow them write theirs unchanged. *)
Example sample_calls_tile_map :
  let v := VRAM (run_bkg_calls sample_calls sample_machine) in
  v !! tile_map_address 0 0 = Some 101 /\
  v !! tile_map_address 1 0 = Some 102 /\
  v !! tile_map_address 2 0 = Some 3 /\
  v !! tile_map_address 3 0 = Some 4 /\
  v !! tile_map_address 1 1 = Some 208 /\
  v !! tile_map_address 0 1 = Some 11.
Proof. vm_compute. done. Qed.

(** ** Composition of shadow OAM updates *)

Lemma set_shadow_OAM_same (s : machine) : set_shadow_OAM (shadow_OAM s) s = s.
Proof. by destruct s. Qed.

(** Two updates of the same entry are one update by the composed change. *)
Lemma update_shadow_OAM_compose (nb : Z) (f g : OAM_item_t -> OAM_item_t)
    (s : machine) :
  update_shadow_OAM nb f s ≫= update_shadow_OAM nb g
  = update_shadow_OAM nb (λ itm, g (f itm)) s.
Proof.
  unfold update_shadow_OAM.
  destruct (shadow_OAM s !! sprite_index nb) as [itm|] eqn:Hitm; simpl; [|done].
  rewrite list_lookup_insert_eq by (by eapply lookup_lt_Some). simpl.
  by rewrite list_insert_insert_eq.
Qed.

(** Only the change made to the entry that is there matters. *)
Lemma update_shadow_OAM_ext (nb : Z) (f g : OAM_item_t -> OAM_item_t)
    (s : machine) :
  (forall itm, shadow_OAM s !! sprite_index nb = Some itm -> f itm = g itm) ->
  update_shadow_OAM nb f s = update_shadow_OAM nb g s.
Proof.
  intros Hfg. unfold update_shadow_OAM.
  destruct (shadow_OAM s !! sprite_index nb) as [itm|] eqn:Hitm; simpl; [|done].
  by rewrite (Hfg itm).
Qed.

Lemma update_shadow_OAM_id (nb : Z) (f : OAM_item_t -> OAM_item_t)
    (s : machine) (itm : OAM_item_t) :
  shadow_OAM s !! sprite_index nb = Some itm -> f itm = itm ->
  update_shadow_OAM nb f s = Some s.
Proof.
  intros Hitm Hf. unfold update_shadow_OAM. rewrite Hitm. simpl.
  rewrite Hf, (list_insert_id _ _ _ Hitm). by rewrite set_shadow_OAM_same.
Qed.

(** Updates of two different entries can be made in either order. *)
Lemma update_shadow_OAM_commute (nb1 nb2 : Z)
    (f g : OAM_item_t -> OAM_item_t) (s : machine) :
  sprite_index nb1 <> sprite_index nb2 ->
  update_shadow_OAM nb1 f s ≫= update_shadow_OAM nb2 g
  = update_shadow_OAM nb2 g s ≫= update_shadow_OAM nb1 f.
Proof.
  intros Hne. unfold update_shadow_OAM.
  destruct (shadow_OAM s !! sprite_index nb1) as [i1|] eqn:H1;
    destruct (shadow_OAM s !! sprite_index nb2) as [i2|] eqn:H2; simpl;
    rewrite ?list_lookup_insert_ne by done; rewrite ?H1, ?H2; simpl; try done.
  by rewrite list_insert_insert_ne.
Qed.

(** Each mutator is an update of the entry by one change of the record. *)
Lemma apply_mutator_update (m : mutator) :
  exists f, forall nb s, apply_mutator m nb s = update_shadow_OAM nb f s.
Proof. destruct m; simpl; eexists; intros nb s; reflexivity. Qed.

Lemma update_shadow_OAM_lookup (nb : Z) (f : OAM_item_t -> OAM_item_t)
    (s s' : machine) (j : nat) :
  update_shadow_OAM nb f s = Some s' ->
  shadow_OAM s' !! j
  = (if decide (sprite_index nb = j) then f else id) <$> shadow_OAM s !! j.
Proof.
  unfold update_shadow_OAM. intros Hup.
  destruct (shadow_OAM s !! sprite_index nb) as [itm|] eqn:Hitm; [|discriminate].
  simpl in Hup. injection Hup as <-. simpl.
  destruct (decide (sprite_index nb = j)) as [<-|Hne].
  - rewrite Hitm. simpl. apply list_lookup_insert_eq. by eapply lookup_lt_Some.
  - rewrite list_lookup_insert_ne by done.
    destruct (shadow_OAM s !! j); reflexivity.
Qed.

(** ** More on the sprite functions *)

(** X1: writing the tile of a sprite changes no sprite's property flags,
    and writing the property flags changes no sprite's tile. *)
Theorem tile_and_prop_independent (s : machine) (nb t p : Z) :
  shadow_OAM_sized s -> 0 <= nb <= 63 ->
  exists s1 s2, set_sprite_tile nb t s = Some s1 /\
    set_sprite_prop nb p s = Some s2 /\
    (forall j, get_sprite_prop j s1 = get_sprite_prop j s) /\
    (forall j, get_sprite_tile j s2 = get_sprite_tile j s).
Proof.
  intros Hsz Hnb. destruct (sprite_lookup s nb Hsz Hnb) as [itm Hitm].
  pose proof (sprite_number_is_uint8 nb Hnb) as Hu8.
  destruct (update_shadow_OAM_Some s nb itm (OAM_item.set_tile t) Hu8 Hitm)
    as (s1 & Hs1 & _).
  destruct (update_shadow_OAM_Some s nb itm (OAM_item.set_prop p) Hu8 Hitm)
    as (s2 & Hs2 & _).
  exists s1, s2. split; [exact Hs1|]. split; [exact Hs2|]. split.
  - intros j. unfold get_sprite_prop.
    rewrite (update_shadow_OAM_lookup nb _ s s1 (sprite_index j) Hs1).
    destruct (shadow_OAM s !! sprite_index j); [|done]. simpl. by case_decide.
  - intros j. unfold get_sprite_tile.
    rewrite (update_shadow_OAM_lookup nb _ s s2 (sprite_index j) Hs2).
    destruct (shadow_OAM s !! sprite_index j); [|done]. simpl. by case_decide.
Qed.

Lemma tile_and_prop_independent_witness :
  exists s1 s2, set_sprite_tile 3 9 sample_machine = Some s1 /\
    set_sprite_prop 3 128 sample_machine = Some s2 /\
    (forall j, get_sprite_prop j s1 = get_sprite_prop j sample_machine) /\
    (forall j, get_sprite_tile j s2 = get_sprite_tile j sample_machine).
Proof.
  apply (tile_and_prop_independent sample_machine 3 9 128); [reflexivity | lia].
Defined.

(** X2: [scroll_sprite] changes no sprite's tile and no sprite's property
    flags. *)
Theorem scroll_sprite_keeps_tile_and_prop (s : machine) (nb dx dy : Z) :
  shadow_OAM_sized s -> 0 <= nb <= 63 ->
  exists s', scroll_sprite nb dx dy s = Some s' /\
    (forall j, get_sprite_tile j s' = get_sprite_tile j s) /\
    (forall j, get_sprite_prop j s' = get_sprite_prop j s).
Proof.
  intros Hsz Hnb. destruct (sprite_lookup s nb Hsz Hnb) as [itm Hitm].
  pose proof (sprite_number_is_uint8 nb Hnb) as Hu8.
  unfold scroll_sprite.
  destruct (update_shadow_OAM_Some s nb itm
              (fun itm =>
                 let itm := OAM_item.set_y (OAM_item.y itm + dy) itm in
                 OAM_item.set_x (OAM_item.x itm + dx) itm) Hu8 Hitm)
    as (s' & Hs' & _).
  exists s'. split; [exact Hs'|].
  split; intros j; unfold get_sprite_tile, get_sprite_prop;
    rewrite (update_shadow_OAM_lookup nb _ s s' (sprite_index j) Hs');
    (destruct (shadow_OAM s !! sprite_index j); [|done]); simpl; by case_decide.
Qed.

Lemma scroll_sprite_keeps_tile_and_prop_witness :
  exists s', scroll_sprite 3 (-1) 5 sample_machine = Some s' /\
    (forall j, get_sprite_tile j s' = get_sprite_tile j sample_machine) /\
    (forall j, get_sprite_prop j s' = get_sprite_prop j sample_machine).
Proof.
  apply (scroll_sprite_keeps_tile_and_prop sample_machine 3 (-1) 5);
    [reflexivity | lia].
Defined.

(** X3: the last write wins: a second [set_sprite_tile],
    [set_sprite_prop] or [move_sprite] on the same sprite makes the first
    one unobservable, and hiding twice is hiding once.  This holds for
    every sprite number, also one outside of the table, where both sides
    are undefined. *)
Theorem sprite_last_write_wins (s : machine) (nb : Z) :
  (forall t1 t2, set_sprite_tile nb t1 s ≫= set_sprite_tile nb t2
                 = set_sprite_tile nb t2 s) /\
  (forall p1 p2, set_sprite_prop nb p1 s ≫= set_sprite_prop nb p2
                 = set_sprite_prop nb p2 s) /\
  (forall x1 y1 x2 y2, move_sprite nb x1 y1 s ≫= move_sprite nb x2 y2
                       = move_sprite nb x2 y2 s) /\
  hide_sprite nb s ≫= hide_sprite nb = hide_sprite nb s.
Proof.
  unfold set_sprite_tile, set_sprite_prop, move_sprite, hide_sprite.
  repeat split; intros; rewrite update_shadow_OAM_compose;
    apply update_shadow_OAM_ext; intros itm _; reflexivity.
Qed.

(** X4: [move_sprite] followed by [scroll_sprite] is one [move_sprite]
    to the position that wrapped addition gives. *)
Theorem move_then_scroll_sprite (s : machine) (nb x y dx dy : Z) :
  move_sprite nb x y s ≫= scroll_sprite nb dx dy
  = move_sprite nb ((x + dx) mod 256) ((y + dy) mod 256) s.
Proof.
  unfold move_sprite, scroll_sprite. rewrite update_shadow_OAM_compose.
  apply update_shadow_OAM_ext. intros itm _.
  unfold OAM_item.set_x, OAM_item.set_y, to_uint8. simpl.
  by rewrite !Zplus_mod_idemp_l, !Z.mod_mod by lia.
Qed.

(** X5: two [scroll_sprite] calls on one sprite are one call with the
    sums of the deltas, when those sums are deltas themselves. *)
Theorem scroll_sprite_twice (s : machine) (nb dx1 dy1 dx2 dy2 : Z) :
  is_int8 (dx1 + dx2) -> is_int8 (dy1 + dy2) ->
  scroll_sprite nb dx1 dy1 s ≫= scroll_sprite nb dx2 dy2
  = scroll_sprite nb (dx1 + dx2) (dy1 + dy2) s.
Proof.
  intros _ _. unfold scroll_sprite. rewrite update_shadow_OAM_compose.
  apply update_shadow_OAM_ext. intros itm _.
  unfold OAM_item.set_x, OAM_item.set_y, to_uint8. simpl.
  by rewrite !Zplus_mod_idemp_l, !Z.add_assoc.
Qed.

Lemma scroll_sprite_twice_witness :
  scroll_sprite 3 100 (-100) sample_machine ≫= scroll_sprite 3 27 (-28)
  = scroll_sprite 3 (100 + 27) (-100 + -28) sample_machine.
Proof.
  apply (scroll_sprite_twice sample_machine 3 100 (-100) 27 (-28));
    unfold is_int8; lia.
Defined.

(** X6: for a sprite number [nb] that is a byte and a sprite of the
    table whose position is a pair of bytes, scrolling by [(dx, dy)] and
    then by [(-dx, -dy)] gives back the machine as it was. *)
Theorem scroll_sprite_back (s : machine) (nb dx dy : Z) (itm : OAM_item_t) :
  is_uint8 nb ->
  shadow_OAM s !! Z.to_nat nb = Some itm ->
  is_uint8 (OAM_item.x itm) -> is_uint8 (OAM_item.y itm) ->
  scroll_sprite nb dx dy s ≫= scroll_sprite nb (- dx) (- dy) = Some s.
Proof.
  intros Hu8 Hitm Hx Hy. rewrite <- (sprite_index_id nb Hu8) in Hitm.
  unfold scroll_sprite. rewrite update_shadow_OAM_compose.
  apply (update_shadow_OAM_id nb _ s itm Hitm).
  destruct itm as [iy it ip ix]. unfold OAM_item.set_x, OAM_item.set_y, to_uint8.
  simpl in *. rewrite !Zplus_mod_idemp_l.
  replace (iy + dy + - dy) with iy by lia. replace (ix + dx + - dx) with ix by lia.
  unfold is_uint8 in *. by rewrite !Z.mod_small by lia.
Qed.

Lemma scroll_sprite_back_witness :
  scroll_sprite 3 10 (-128) sample_machine ≫= scroll_sprite 3 (- 10) (- -128)
  = Some sample_machine.
Proof.
  apply (scroll_sprite_back sample_machine 3 10 (-128) sample_item);
    [unfold is_uint8; lia | reflexivity | unfold is_uint8; simpl; lia
    | unfold is_uint8; simpl; lia].
Defined.

(** X7: a hidden sprite is shown again by [move_sprite]: the earlier
    [hide_sprite] leaves no trace; and hiding a sprite just moved keeps
    the horizontal position of the move. *)
Theorem hide_and_move_sprite (s : machine) (nb x y : Z) :
  hide_sprite nb s ≫= move_sprite nb x y = move_sprite nb x y s /\
  move_sprite nb x y s ≫= hide_sprite nb = move_sprite nb x 240 s.
Proof.
  unfold hide_sprite, move_sprite.
  split; rewrite update_shadow_OAM_compose; apply update_shadow_OAM_ext;
    intros itm _; reflexivity.
Qed.

(** X8: scrolling a sprite that was just hidden moves it from line 240:
    its vertical position becomes [(240 + dy) mod 256], which is still
    off screen (240 or more) exactly when [0 <= dy <= 15]. *)
Theorem scroll_hidden_sprite (s : machine) (nb dx dy : Z) :
  shadow_OAM_sized s -> 0 <= nb <= 63 -> is_int8 dy ->
  exists s' itm', hide_sprite nb s ≫= scroll_sprite nb dx dy = Some s' /\
    shadow_OAM s' !! Z.to_nat nb = Some itm' /\
    OAM_item.y itm' = (240 + dy) mod 256 /\
    (240 <= OAM_item.y itm' <-> 0 <= dy <= 15).
Proof.
  intros Hsz Hnb Hdy. destruct (sprite_lookup s nb Hsz Hnb) as [itm Hitm].
  pose proof (sprite_number_is_uint8 nb Hnb) as Hu8.
  unfold hide_sprite, scroll_sprite. rewrite update_shadow_OAM_compose.
  match goal with
  | |- context [update_shadow_OAM nb ?f s] =>
      destruct (update_shadow_OAM_Some s nb itm f Hu8 Hitm) as (s' & Hs' & _ & Hnew);
      exists s', (f itm)
  end.
  split; [exact Hs'|]. split; [exact Hnew|].
  unfold OAM_item.set_x, OAM_item.set_y, to_uint8. simpl.
  change (240 mod 256) with 240. split; [reflexivity|].
  unfold is_int8 in Hdy.
  destruct (Z_lt_le_dec dy 0) as [Hneg|Hpos].
  - rewrite Z.mod_small by lia. lia.
  - destruct (Z_lt_le_dec dy 16) as [Hlt|Hge].
    + rewrite Z.mod_small by lia. lia.
    + replace (240 + dy) with (dy - 16 + 1 * 256) by lia.
      rewrite Z.mod_add by lia. rewrite Z.mod_small by lia. lia.
Qed.

Lemma scroll_hidden_sprite_witness :
  exists s' itm', hide_sprite 3 sample_machine ≫= scroll_sprite 3 0 16 = Some s' /\
    shadow_OAM s' !! Z.to_nat 3 = Some itm' /\
    OAM_item.y itm' = (240 + 16) mod 256 /\
    (240 <= OAM_item.y itm' <-> 0 <= 16 <= 15).
Proof.
  apply (scroll_hidden_sprite sample_machine 3 0 16);
    [reflexivity | lia | unfold is_int8; lia].
Defined.

(** The record a mutator leaves has bytes in all its members, whatever
    the arguments, if the record it started from had. *)
Lemma apply_mutator_typed_update (m : mutator) :
  exists f, (forall nb s, apply_mutator m nb s = update_shadow_OAM nb f s) /\
            (forall itm, item_typed itm -> item_typed (f itm)).
Proof.
  destruct m; simpl; eexists; (split; [intros nb s; reflexivity|]);
    intros [iy it ip ix] (Hy & Ht & Hp & Hx); simpl in *;
    unfold item_typed; simpl; refine (conj _ (conj _ (conj _ _)));
    first [assumption | apply to_uint8_range].
Qed.

(** X9: the mutators keep the table well formed: after any of them, with
    any arguments, the table still has 64 entries and all members of all
    entries are still bytes. *)
Theorem mutators_keep_table_typed (m : mutator) (nb : Z) (s : machine) :
  shadow_OAM_sized s -> shadow_OAM_typed s -> 0 <= nb <= 63 ->
  exists s', apply_mutator m nb s = Some s' /\
    shadow_OAM_sized s' /\ shadow_OAM_typed s'.
Proof.
  intros Hsz Hty Hnb. destruct (sprite_lookup s nb Hsz Hnb) as [itm Hitm].
  pose proof (sprite_number_is_uint8 nb Hnb) as Hu8.
  destruct (apply_mutator_typed_update m) as (f & Hf & Hfty).
  destruct (update_shadow_OAM_Some s nb itm f Hu8 Hitm) as (s' & Hs' & Heq & _).
  exists s'. rewrite Hf. split; [exact Hs'|].
  unfold shadow_OAM_sized, shadow_OAM_typed in *. rewrite Heq. split.
  - by rewrite length_insert.
  - apply Forall_insert; [exact Hty|]. apply Hfty.
    by apply (Forall_lookup_1 _ _ _ _ Hty Hitm).
Qed.

Lemma sample_machine_typed : shadow_OAM_typed sample_machine.
Proof.
  change (Forall item_typed (<[3%nat := sample_item]> (replicate 64 hidden_item))).
  apply Forall_insert.
  - apply Forall_replicate. unfold item_typed, is_uint8. simpl. lia.
  - unfold item_typed, is_uint8. simpl. lia.
Qed.

Lemma mutators_keep_table_typed_witness :
  exists s', apply_mutator (Scroll_sprite 100 100) 3 sample_machine = Some s' /\
    shadow_OAM_sized s' /\ shadow_OAM_typed s'.
Proof.
  apply (mutators_keep_table_typed (Scroll_sprite 100 100) 3 sample_machine);
    [reflexivity | exact sample_machine_typed | lia].
Defined.

(** X10: mutators applied to two different sprite numbers, both bytes,
    can be called in either order: the resulting machine is the same. *)
Theorem mutators_commute_across_sprites (m1 m2 : mutator) (nb1 nb2 : Z)
    (s : machine) :
  is_uint8 nb1 -> is_uint8 nb2 -> nb1 <> nb2 ->
  apply_mutator m1 nb1 s ≫= apply_mutator m2 nb2
  = apply_mutator m2 nb2 s ≫= apply_mutator m1 nb1.
Proof.
  intros H1 H2 Hne.
  destruct (apply_mutator_update m1) as [f Hf].
  destruct (apply_mutator_update m2) as [g Hg].
  rewrite (Hf nb1 s), (Hg nb2 s).
  transitivity (update_shadow_OAM nb1 f s ≫= update_shadow_OAM nb2 g).
  - destruct (update_shadow_OAM nb1 f s); simpl; [apply Hg | reflexivity].
  - rewrite update_shadow_OAM_commute
      by (rewrite (sprite_index_id nb1 H1), (sprite_index_id nb2 H2);
          unfold is_uint8 in *; lia).
    destruct (update_shadow_OAM nb2 g s); simpl; [symmetry; apply Hf | reflexivity].
Qed.

Lemma mutators_commute_across_sprites_witness :
  apply_mutator Hide_sprite 3 sample_machine ≫= apply_mutator (Move_sprite 8 9) 4
  = apply_mutator (Move_sprite 8 9) 4 sample_machine ≫= apply_mutator Hide_sprite 3.
Proof.
  apply (mutators_commute_across_sprites Hide_sprite (Move_sprite 8 9) 3 4
           sample_machine); unfold is_uint8; lia.
Defined.

(** X11: on one sprite, a write of the tile or of the property flags
    and a change of the position ([move_sprite], [scroll_sprite],
    [hide_sprite]) can be made in either order, and so can the tile and
    the property writes. *)
Theorem sprite_members_commute (s : machine) (nb t p x y : Z) :
  set_sprite_tile nb t s ≫= set_sprite_prop nb p
  = set_sprite_prop nb p s ≫= set_sprite_tile nb t /\
  set_sprite_tile nb t s ≫= move_sprite nb x y
  = move_sprite nb x y s ≫= set_sprite_tile nb t /\
  set_sprite_tile nb t s ≫= scroll_sprite nb x y
  = scroll_sprite nb x y s ≫= set_sprite_tile nb t /\
  set_sprite_tile nb t s ≫= hide_sprite nb
  = hide_sprite nb s ≫= set_sprite_tile nb t /\
  set_sprite_prop nb p s ≫= move_sprite nb x y
  = move_sprite nb x y s ≫= set_sprite_prop nb p /\
  set_sprite_prop nb p s ≫= scroll_sprite nb x y
  = scroll_sprite nb x y s ≫= set_sprite_prop nb p /\
  set_sprite_prop nb p s ≫= hide_sprite nb
  = hide_sprite nb s ≫= set_sprite_prop nb p.
Proof.
  unfold set_sprite_tile, set_sprite_prop, move_sprite, scroll_sprite,
    hide_sprite.
  repeat split; rewrite !update_shadow_OAM_compose;
    apply update_shadow_OAM_ext; intros itm _; reflexivity.
Qed.

(** The position after [n] calls of [scroll_sprite] with the same
    deltas. *)
Lemma scroll_sprite_iter (n : nat) (s : machine) (nb dx dy : Z) :
  Nat.iter (S n) (λ o, o ≫= scroll_sprite nb dx dy) (Some s)
  = scroll_sprite nb (Z.of_nat (S n) * dx) (Z.of_nat (S n) * dy) s.
Proof.
  induction n as [|n IH].
  - simpl. unfold scroll_sprite. apply update_shadow_OAM_ext. intros itm _.
    by rewrite !Z.mul_1_l.
  - rewrite Nat.iter_succ, IH. unfold scroll_sprite.
    rewrite update_shadow_OAM_compose. apply update_shadow_OAM_ext.
    intros itm _. unfold OAM_item.set_x, OAM_item.set_y, to_uint8. simpl.
    rewrite !Zplus_mod_idemp_l. f_equal; f_equal; lia.
Qed.

(** X12: for a sprite number [nb] that is a byte and a sprite of the
    table, [n] calls of [scroll_sprite] with the same deltas leave the
    sprite at [(x + n * dx) mod 256], [(y + n * dy) mod 256]; positions
    are bytes, so 256 such calls bring the sprite back to where it was. *)
Theorem scroll_sprite_repeated (n : nat) (s : machine) (nb dx dy : Z)
    (itm : OAM_item_t) :
  is_uint8 nb ->
  shadow_OAM s !! Z.to_nat nb = Some itm ->
  is_uint8 (OAM_item.x itm) -> is_uint8 (OAM_item.y itm) ->
  (exists s' itm',
     Nat.iter n (λ o, o ≫= scroll_sprite nb dx dy) (Some s) = Some s' /\
     shadow_OAM s' !! Z.to_nat nb = Some itm' /\
     OAM_item.x itm' = (OAM_item.x itm + Z.of_nat n * dx) mod 256 /\
     OAM_item.y itm' = (OAM_item.y itm + Z.of_nat n * dy) mod 256) /\
  Nat.iter 256 (λ o, o ≫= scroll_sprite nb dx dy) (Some s) = Some s.
Proof.
  intros Hu8 Hitm Hx Hy. split.
  - destruct n as [|n].
    + exists s, itm. split; [reflexivity|]. split; [exact Hitm|].
      unfold is_uint8 in *. simpl. rewrite !Z.add_0_r, !Z.mod_small by lia. done.
    + rewrite scroll_sprite_iter. unfold scroll_sprite.
      match goal with
      | |- context [update_shadow_OAM nb ?f s] =>
          destruct (update_shadow_OAM_Some s nb itm f Hu8 Hitm)
            as (s' & Hs' & _ & Hnew); exists s', (f itm)
      end.
      split; [exact Hs'|]. split; [exact Hnew|]. split; reflexivity.
  - rewrite (scroll_sprite_iter 255). unfold scroll_sprite.
    rewrite <- (sprite_index_id nb Hu8) in Hitm.
    apply (update_shadow_OAM_id nb _ s itm Hitm).
    destruct itm as [iy it ip ix].
    unfold OAM_item.set_x, OAM_item.set_y, to_uint8. simpl in *.
    change (Z.of_nat 256) with 256. unfold is_uint8 in *.
    rewrite (Z.mul_comm 256 dx), (Z.mul_comm 256 dy), !Z.mod_add by lia.
    by rewrite !Z.mod_small by lia.
Qed.

Lemma scroll_sprite_repeated_witness :
  (exists s' itm',
     Nat.iter 5 (λ o, o ≫= scroll_sprite 3 3 (-7)) (Some sample_machine) = Some s' /\
     shadow_OAM s' !! Z.to_nat 3 = Some itm' /\
     OAM_item.x itm' = (OAM_item.x sample_item + Z.of_nat 5 * 3) mod 256 /\
     OAM_item.y itm' = (OAM_item.y sample_item + Z.of_nat 5 * -7) mod 256) /\
  Nat.iter 256 (λ o, o ≫= scroll_sprite 3 3 (-7)) (Some sample_machine)
  = Some sample_machine.
Proof.
  apply (scroll_sprite_repeated 5 sample_machine 3 3 (-7) sample_item);
    [unfold is_uint8; lia | reflexivity | unfold is_uint8; simpl; lia
    | unfold is_uint8; simpl; lia].
Defined.

(** ** The DMA byte and page zero *)

(** X13: [_shadow_OAM_base = 0] is the disabled state, so a buffer in
    page zero cannot be selected: for a 16-bit pointer [p],
    [SET_SHADOW_OAM_ADDRESS p] leaves the machine that [DISABLE_OAM_DMA]
    leaves exactly when [p < 256]. *)
Theorem SET_SHADOW_OAM_ADDRESS_page_zero (p : Z) (s : machine) :
  is_uint16 p ->
  (SET_SHADOW_OAM_ADDRESS p s = DISABLE_OAM_DMA s <-> p < 256).
Proof.
  intros Hp. split.
  - intros Heq. apply (f_equal _shadow_OAM_base) in Heq.
    rewrite (SET_SHADOW_OAM_ADDRESS_base p s Hp) in Heq. simpl in Heq.
    change (to_uint8 0) with 0 in Heq. unfold is_uint16 in Hp.
    pose proof (Z.div_mod p 256). pose proof (Z.mod_pos_bound p 256). lia.
  - intros Hlt. unfold SET_SHADOW_OAM_ADDRESS, DISABLE_OAM_DMA.
    rewrite (high_byte_shiftr p Hp). unfold is_uint16 in Hp.
    by rewrite Z.div_small by lia.
Qed.

Lemma SET_SHADOW_OAM_ADDRESS_page_zero_witness :
  SET_SHADOW_OAM_ADDRESS 128 sample_machine = DISABLE_OAM_DMA sample_machine
  <-> 128 < 256.
Proof.
  apply (SET_SHADOW_OAM_ADDRESS_page_zero 128 sample_machine).
  unfold is_uint16. lia.
Defined.

(** ** Background scroll *)

Lemma registers_typed_same (s : machine) :
  registers_typed s ->
  set_bkg_scroll_y (bkg_scroll_y s) (set_bkg_scroll_x (bkg_scroll_x s) s) = s.
Proof.
  intros (Hx & Hy & _). destruct s. unfold set_bkg_scroll_x, set_bkg_scroll_y.
  simpl in *. by rewrite (to_uint8_id _ Hx), (to_uint8_id _ Hy).
Qed.

Lemma scroll_bkg_scroll_bkg (dx1 dy1 dx2 dy2 : Z) (s : machine) :
  scroll_bkg dx2 dy2 (scroll_bkg dx1 dy1 s) = scroll_bkg (dx1 + dx2) (dy1 + dy2) s.
Proof.
  unfold scroll_bkg, set_bkg_scroll_x, set_bkg_scroll_y, to_uint8. simpl.
  by rewrite !Zplus_mod_idemp_l, !Z.add_assoc.
Qed.

Lemma scroll_bkg_multiple_of_256 (kx ky : Z) (s : machine) :
  registers_typed s -> scroll_bkg (256 * kx) (256 * ky) s = s.
Proof.
  intros Hty. rewrite <- (registers_typed_same s Hty) at 2.
  destruct Hty as (Hx & Hy & _). unfold is_uint8 in *.
  unfold scroll_bkg, set_bkg_scroll_x, set_bkg_scroll_y, to_uint8. simpl.
  rewrite (Z.mul_comm 256 kx), (Z.mul_comm 256 ky), !Z.mod_add by lia.
  reflexivity.
Qed.

Lemma scroll_bkg_iter (n : nat) (dx dy : Z) (s : machine) :
  Nat.iter (S n) (scroll_bkg dx dy) s
  = scroll_bkg (Z.of_nat (S n) * dx) (Z.of_nat (S n) * dy) s.
Proof.
  induction n as [|n IH].
  - simpl. by rewrite !Z.mul_1_l.
  - rewrite Nat.iter_succ, IH, scroll_bkg_scroll_bkg. f_equal; lia.
Qed.

(** X14: two [scroll_bkg] calls are one call with the sums of the
    deltas, and [move_bkg] followed by [scroll_bkg] is one [move_bkg] to
    the position that wrapped addition gives. *)
Theorem scroll_bkg_composes (x y dx dy dx' dy' : Z) (s : machine) :
  scroll_bkg dx' dy' (scroll_bkg dx dy s) = scroll_bkg (dx + dx') (dy + dy') s /\
  scroll_bkg dx dy (move_bkg x y s)
  = move_bkg ((x + dx) mod 256) ((y + dy) mod 256) s.
Proof.
  split; [apply scroll_bkg_scroll_bkg|].
  unfold scroll_bkg, move_bkg, set_bkg_scroll_x, set_bkg_scroll_y, to_uint8.
  simpl. by rewrite !Zplus_mod_idemp_l, !Z.mod_mod by lia.
Qed.

(** X15: on a machine whose scroll bytes are bytes, [n] calls of
    [scroll_bkg] with the same deltas leave the background at
    [(x + n * dx) mod 256], [(y + n * dy) mod 256]; scrolling back by the
    opposite deltas, or 256 times by the same, restores the machine. *)
Theorem scroll_bkg_repeated (n : nat) (dx dy : Z) (s : machine) :
  registers_typed s ->
  bkg_scroll_x (Nat.iter n (scroll_bkg dx dy) s)
  = (bkg_scroll_x s + Z.of_nat n * dx) mod 256 /\
  bkg_scroll_y (Nat.iter n (scroll_bkg dx dy) s)
  = (bkg_scroll_y s + Z.of_nat n * dy) mod 256 /\
  scroll_bkg (- dx) (- dy) (scroll_bkg dx dy s) = s /\
  Nat.iter 256 (scroll_bkg dx dy) s = s.
Proof.
  intros Hty. split; [|split; [|split]].
  - destruct n as [|n].
    + destruct Hty as (Hx & _). unfold is_uint8 in Hx. simpl.
      by rewrite Z.add_0_r, Z.mod_small by lia.
    + by rewrite scroll_bkg_iter.
  - destruct n as [|n].
    + destruct Hty as (_ & Hy & _). unfold is_uint8 in Hy. simpl.
      by rewrite Z.add_0_r, Z.mod_small by lia.
    + by rewrite scroll_bkg_iter.
  - rewrite scroll_bkg_scroll_bkg.
    replace (dx + - dx) with (256 * 0) by lia.
    replace (dy + - dy) with (256 * 0) by lia.
    by apply scroll_bkg_multiple_of_256.
  - rewrite (scroll_bkg_iter 255). change (Z.of_nat 256) with 256.
    by apply scroll_bkg_multiple_of_256.
Qed.

Lemma scroll_bkg_repeated_witness :
  bkg_scroll_x (Nat.iter 3 (scroll_bkg (-1) 100) sample_machine)
  = (bkg_scroll_x sample_machine + Z.of_nat 3 * -1) mod 256 /\
  bkg_scroll_y (Nat.iter 3 (scroll_bkg (-1) 100) sample_machine)
  = (bkg_scroll_y sample_machine + Z.of_nat 3 * 100) mod 256 /\
  scroll_bkg (- -1) (- 100) (scroll_bkg (-1) 100 sample_machine) = sample_machine /\
  Nat.iter 256 (scroll_bkg (-1) 100) sample_machine = sample_machine.
Proof.
  apply (scroll_bkg_repeated 3 (-1) 100 sample_machine).
  unfold registers_typed, is_uint8. simpl. lia.
Defined.

Example scroll_bkg_left_of_origin :
  bkg_scroll_x (scroll_bkg (-1) 0 sample_machine) = 255.
Proof. reflexivity. Qed.

(** ** Layer switches *)

Lemma to_uint8_testbit (z i : Z) :
  0 <= i -> Z.testbit (to_uint8 z) i = (i <? 8) && Z.testbit z i.
Proof.
  intros Hi. unfold to_uint8. change 256 with (2 ^ 8).
  destruct (Z.ltb_spec i 8); simpl.
  - apply Z.mod_pow2_bits_low. lia.
  - apply Z.mod_pow2_bits_high. lia.
Qed.

Lemma is_uint8_testbit_high (z i : Z) :
  is_uint8 z -> 8 <= i -> Z.testbit z i = false.
Proof.
  intros Hz Hi. rewrite <- (to_uint8_id z Hz), to_uint8_testbit by lia.
  destruct (Z.ltb_spec i 8); [lia | reflexivity].
Qed.

(** Bits of the register after [|= m] and after [&= ~m]. *)
Lemma or_shadow_PPUMASK_testbit (m i : Z) (s : machine) :
  0 <= i ->
  Z.testbit (shadow_PPUMASK (or_shadow_PPUMASK m s)) i
  = (i <? 8) && (Z.testbit (shadow_PPUMASK s) i || Z.testbit m i).
Proof.
  intros Hi. unfold or_shadow_PPUMASK. simpl.
  by rewrite to_uint8_testbit, Z.lor_spec.
Qed.

Lemma and_not_shadow_PPUMASK_testbit (m i : Z) (s : machine) :
  0 <= i ->
  Z.testbit (shadow_PPUMASK (and_not_shadow_PPUMASK m s)) i
  = (i <? 8) && (Z.testbit (shadow_PPUMASK s) i && negb (Z.testbit m i)).
Proof.
  intros Hi. unfold and_not_shadow_PPUMASK. simpl.
  by rewrite to_uint8_testbit, Z.land_spec, Z.lnot_spec.
Qed.

(** Two machines that differ at most in [shadow_PPUMASK] are equal when
    the two registers have the same bits. *)
Lemma set_shadow_PPUMASK_bits (v w : Z) (s : machine) :
  (forall i, 0 <= i -> Z.testbit (to_uint8 v) i = Z.testbit (to_uint8 w) i) ->
  set_shadow_PPUMASK v s = set_shadow_PPUMASK w s.
Proof.
  intros Hbits. unfold set_shadow_PPUMASK. f_equal. by apply Z.bits_inj'.
Qed.

Lemma set_shadow_PPUCTRL_bits (v w : Z) (s : machine) :
  (forall i, 0 <= i -> Z.testbit (to_uint8 v) i = Z.testbit (to_uint8 w) i) ->
  set_shadow_PPUCTRL v s = set_shadow_PPUCTRL w s.
Proof.
  intros Hbits. unfold set_shadow_PPUCTRL. f_equal. by apply Z.bits_inj'.
Qed.

Lemma apply_mask_switch_unfold `{Hardware} (m : mask_switch) (s : machine) :
  apply_mask_switch m s
  = if switch_shows m then or_shadow_PPUMASK (switch_mask m) s
    else and_not_shadow_PPUMASK (switch_mask m) s.
Proof. by destruct m. Qed.

(** X16: a switch of [shadow_PPUMASK] changes the bits of its mask and
    no other: with bytes for the register and for the mask, each bit of
    the mask is set by the SHOW macros and cleared by the HIDE macros,
    every other bit of the register is as before, and nothing but the
    register changes. *)
Theorem mask_switch_bits `{Hardware} (m : mask_switch) (s : machine) :
  is_uint8 (shadow_PPUMASK s) -> is_uint8 (switch_mask m) ->
  (forall i, 0 <= i ->
     Z.testbit (shadow_PPUMASK (apply_mask_switch m s)) i
     = if Z.testbit (switch_mask m) i then switch_shows m
       else Z.testbit (shadow_PPUMASK s) i) /\
  is_uint8 (shadow_PPUMASK (apply_mask_switch m s)) /\
  apply_mask_switch m s
  = set_shadow_PPUMASK (shadow_PPUMASK (apply_mask_switch m s)) s.
Proof.
  intros Hv Hm. split; [|split].
  - intros i Hi. rewrite apply_mask_switch_unfold.
    destruct (Z.ltb_spec i 8) as [Hlt|Hge].
    + destruct (switch_shows m).
      * rewrite or_shadow_PPUMASK_testbit by lia.
        destruct (Z.ltb_spec i 8); [|lia].
        by destruct (Z.testbit (switch_mask m) i),
                    (Z.testbit (shadow_PPUMASK s) i).
      * rewrite and_not_shadow_PPUMASK_testbit by lia.
        destruct (Z.ltb_spec i 8); [|lia].
        by destruct (Z.testbit (switch_mask m) i),
                    (Z.testbit (shadow_PPUMASK s) i).
    + rewrite (is_uint8_testbit_high _ i Hm Hge), (is_uint8_testbit_high _ i Hv Hge).
      destruct (switch_shows m).
      * rewrite or_shadow_PPUMASK_testbit by lia.
        destruct (Z.ltb_spec i 8); [lia | reflexivity].
      * rewrite and_not_shadow_PPUMASK_testbit by lia.
        destruct (Z.ltb_spec i 8); [lia | reflexivity].
  - rewrite apply_mask_switch_unfold.
    destruct (switch_shows m); simpl; apply to_uint8_range.
  - rewrite apply_mask_switch_unfold.
    destruct (switch_shows m);
      unfold or_shadow_PPUMASK, and_not_shadow_PPUMASK, set_shadow_PPUMASK,
        to_uint8; simpl; by rewrite Z.mod_mod by lia.
Qed.

Lemma mask_switch_bits_witness :
  (forall i, 0 <= i ->
     Z.testbit (shadow_PPUMASK (apply_mask_switch Show_sprites sample_machine)) i
     = if Z.testbit (switch_mask Show_sprites) i then switch_shows Show_sprites
       else Z.testbit (shadow_PPUMASK sample_machine) i) /\
  is_uint8 (shadow_PPUMASK (apply_mask_switch Show_sprites sample_machine)) /\
  apply_mask_switch Show_sprites sample_machine
  = set_shadow_PPUMASK
      (shadow_PPUMASK (apply_mask_switch Show_sprites sample_machine))
      sample_machine.
Proof.
  apply (@mask_switch_bits sample_hardware Show_sprites sample_machine);
    unfold is_uint8; simpl; lia.
Defined.

(** X17: showing a layer and then hiding it is hiding it, and hiding it
    and then showing it is showing it; the same for the left column and
    for the sprite size.  This holds for any values of the masks and of
    the registers. *)
Theorem show_hide_cancel `{Hardware} (s : machine) :
  HIDE_BKG (SHOW_BKG s) = HIDE_BKG s /\
  SHOW_BKG (HIDE_BKG s) = SHOW_BKG s /\
  HIDE_SPRITES (SHOW_SPRITES s) = HIDE_SPRITES s /\
  SHOW_SPRITES (HIDE_SPRITES s) = SHOW_SPRITES s /\
  HIDE_LEFT_COLUMN (SHOW_LEFT_COLUMN s) = HIDE_LEFT_COLUMN s /\
  SHOW_LEFT_COLUMN (HIDE_LEFT_COLUMN s) = SHOW_LEFT_COLUMN s /\
  SPRITES_8x8 (SPRITES_8x16 s) = SPRITES_8x8 s /\
  SPRITES_8x16 (SPRITES_8x8 s) = SPRITES_8x16 s.
Proof.
  unfold HIDE_BKG, SHOW_BKG, HIDE_SPRITES, SHOW_SPRITES, HIDE_LEFT_COLUMN,
    SHOW_LEFT_COLUMN, SPRITES_8x8, SPRITES_8x16.
  assert (Hmask : forall m,
    and_not_shadow_PPUMASK m (or_shadow_PPUMASK m s) = and_not_shadow_PPUMASK m s /\
    or_shadow_PPUMASK m (and_not_shadow_PPUMASK m s) = or_shadow_PPUMASK m s).
  { intros m.
    split; unfold and_not_shadow_PPUMASK, or_shadow_PPUMASK; simpl;
      apply (set_shadow_PPUMASK_bits _ _ s); intros i Hi;
      rewrite ?to_uint8_testbit, ?Z.land_spec, ?Z.lor_spec, ?Z.lnot_spec,
        ?to_uint8_testbit, ?Z.land_spec, ?Z.lor_spec, ?Z.lnot_spec by lia;
      by destruct (i <? 8), (Z.testbit (shadow_PPUMASK s) i), (Z.testbit m i). }
  assert (Hctrl : forall m,
    and_not_shadow_PPUCTRL m (or_shadow_PPUCTRL m s) = and_not_shadow_PPUCTRL m s /\
    or_shadow_PPUCTRL m (and_not_shadow_PPUCTRL m s) = or_shadow_PPUCTRL m s).
  { intros m.
    split; unfold and_not_shadow_PPUCTRL, or_shadow_PPUCTRL; simpl;
      apply (set_shadow_PPUCTRL_bits _ _ s); intros i Hi;
      rewrite ?to_uint8_testbit, ?Z.land_spec, ?Z.lor_spec, ?Z.lnot_spec,
        ?to_uint8_testbit, ?Z.land_spec, ?Z.lor_spec, ?Z.lnot_spec by lia;
      by destruct (i <? 8), (Z.testbit (shadow_PPUCTRL s) i), (Z.testbit m i). }
  pose proof (Hmask PPUMASK_SHOW_BG) as [? ?].
  pose proof (Hmask PPUMASK_SHOW_SPR) as [? ?].
  pose proof (Hmask (Z.lor PPUMASK_SHOW_BG_LC PPUMASK_SHOW_SPR_LC)) as [? ?].
  pose proof (Hctrl PPUCTRL_SPR_8X16) as [? ?].
  repeat split; assumption.
Qed.

(** X18: two switches of [shadow_PPUMASK] can be made in either order
    when both show, both hide, or their masks have no bit in common. *)
Theorem mask_switches_commute `{Hardware} (m1 m2 : mask_switch) (s : machine) :
  switch_shows m1 = switch_shows m2 \/
    Z.land (switch_mask m1) (switch_mask m2) = 0 ->
  apply_mask_switch m1 (apply_mask_switch m2 s)
  = apply_mask_switch m2 (apply_mask_switch m1 s).
Proof.
  intros Hcase. rewrite !apply_mask_switch_unfold.
  assert (Hdisj : switch_shows m1 = switch_shows m2 \/ forall i, 0 <= i ->
            Z.testbit (switch_mask m1) i && Z.testbit (switch_mask m2) i = false).
  { destruct Hcase as [Hs|Hd]; [by left | right]. intros i Hi.
    by rewrite <- Z.land_spec, Hd, Z.bits_0. }
  clear Hcase.
  destruct (switch_shows m1) eqn:E1, (switch_shows m2) eqn:E2;
    unfold or_shadow_PPUMASK, and_not_shadow_PPUMASK; simpl;
    apply (set_shadow_PPUMASK_bits _ _ s); intros i Hi;
    rewrite ?to_uint8_testbit, ?Z.land_spec, ?Z.lor_spec, ?Z.lnot_spec,
      ?to_uint8_testbit, ?Z.land_spec, ?Z.lor_spec, ?Z.lnot_spec by lia;
    (destruct Hdisj as [Hs|Hd]; [try discriminate Hs | specialize (Hd i Hi)]);
    destruct (i <? 8), (Z.testbit (shadow_PPUMASK s) i),
      (Z.testbit (switch_mask m1) i), (Z.testbit (switch_mask m2) i);
    simpl in *; congruence.
Qed.

Lemma mask_switches_commute_witness :
  apply_mask_switch Hide_sprites (apply_mask_switch Show_bkg sample_machine)
  = apply_mask_switch Show_bkg (apply_mask_switch Hide_sprites sample_machine).
Proof.
  apply (@mask_switches_commute sample_hardware Hide_sprites Show_bkg
           sample_machine).
  right. reflexivity.
Defined.

Example show_then_hide_same_bits :
  shadow_PPUMASK (HIDE_LEFT_COLUMN (SHOW_SPRITES (SHOW_BKG (SHOW_LEFT_COLUMN
    sample_machine)))) = 24.
Proof. reflexivity. Qed.

(** ** Colour and palette macros *)

Lemma is_2bit_cases (z : Z) : is_2bit z -> z = 0 \/ z = 1 \/ z = 2 \/ z = 3.
Proof. unfold is_2bit. lia. Qed.

Lemma land_3_is_2bit (z : Z) : is_2bit (Z.land z 3).
Proof.
  unfold is_2bit. change 3 with (Z.ones 2) at 1 2. rewrite Z.land_ones by lia.
  pose proof (Z.mod_pos_bound z (2 ^ 2)). lia.
Qed.

Lemma shiftr_6_is_2bit (z : Z) : is_uint8 z -> is_2bit (Z.shiftr z 6).
Proof.
  unfold is_uint8, is_2bit. intros Hz. rewrite Z.shiftr_div_pow2 by lia.
  change (2 ^ 6) with 64. split.
  - apply Z.div_pos; lia.
  - apply Z.lt_succ_r. apply Z.div_lt_upper_bound; lia.
Qed.

Lemma RGB_2bit (r g b : Z) :
  is_2bit r -> is_2bit g -> is_2bit b ->
  RGB r g b = r + 4 * g + 16 * b /\
  Z.land (RGB r g b) 3 = r /\
  Z.land (Z.shiftr (RGB r g b) 2) 3 = g /\
  Z.shiftr (RGB r g b) 4 = b.
Proof.
  intros Hr Hg Hb.
  destruct (is_2bit_cases r Hr) as [->|[->|[->| ->]]];
    destruct (is_2bit_cases g Hg) as [->|[->|[->| ->]]];
    destruct (is_2bit_cases b Hb) as [->|[->|[->| ->]]];
    vm_compute; done.
Qed.

(** X19: [RGB] packs three 2-bit components into the six low bits of a
    colour without loss: the colour is [r + 4 g + 16 b], at most 63, and
    each component is read back from its two bits. *)
Theorem RGB_components (r g b : Z) :
  is_2bit r -> is_2bit g -> is_2bit b ->
  RGB r g b = r + 4 * g + 16 * b /\
  0 <= RGB r g b <= 63 /\
  Z.land (RGB r g b) 3 = r /\
  Z.land (Z.shiftr (RGB r g b) 2) 3 = g /\
  Z.shiftr (RGB r g b) 4 = b.
Proof.
  intros Hr Hg Hb. destruct (RGB_2bit r g b Hr Hg Hb) as (Hsum & H0 & H1 & H2).
  split; [exact Hsum|]. split; [unfold is_2bit in *; lia|]. done.
Qed.

Lemma RGB_components_witness :
  RGB 3 1 2 = 3 + 4 * 1 + 16 * 2 /\
  0 <= RGB 3 1 2 <= 63 /\
  Z.land (RGB 3 1 2) 3 = 3 /\
  Z.land (Z.shiftr (RGB 3 1 2) 2) 3 = 1 /\
  Z.shiftr (RGB 3 1 2) 4 = 2.
Proof. apply (RGB_components 3 1 2); unfold is_2bit; lia. Defined.

(** X20: [RGBHTML] of the 24-bit value 0xRRGGBB is [RGB8] of its three
    bytes, and [RGB8] keeps the two high bits of each byte: it is [RGB] of
    the bytes divided by 64, a colour between 0 and 63. *)
Theorem RGBHTML_is_RGB8 (r g b : Z) :
  is_uint8 r -> is_uint8 g -> is_uint8 b ->
  RGBHTML (65536 * r + 256 * g + b) = RGB8 r g b /\
  RGB8 r g b = RGB (r / 64) (g / 64) (b / 64) /\
  RGB8 r g b = r / 64 + 4 * (g / 64) + 16 * (b / 64) /\
  0 <= RGB8 r g b <= 63.
Proof.
  intros Hr Hg Hb.
  assert (H8 : RGB8 r g b = RGB (r / 64) (g / 64) (b / 64)).
  { unfold RGB8, RGB. by rewrite !Z.shiftr_div_pow2 by lia. }
  pose proof (shiftr_6_is_2bit r Hr) as Hr2.
  pose proof (shiftr_6_is_2bit g Hg) as Hg2.
  pose proof (shiftr_6_is_2bit b Hb) as Hb2.
  rewrite Z.shiftr_div_pow2 in Hr2, Hg2, Hb2 by lia.
  change (2 ^ 6) with 64 in *.
  destruct (RGB_2bit _ _ _ Hr2 Hg2 Hb2) as (Hsum & _).
  split; [|split; [exact H8|split; [by rewrite H8|]]].
  - unfold RGBHTML, RGB8. unfold is_uint8 in *.
    change 65535 with (Z.ones 16). change 255 with (Z.ones 8).
    rewrite !Z.land_ones, !Z.shiftr_div_pow2 by lia.
    change (2 ^ 22) with 4194304. change (2 ^ 16) with 65536.
    change (2 ^ 14) with 16384. change (2 ^ 8) with 256. change (2 ^ 6) with 64.
    assert (E1 : (65536 * r + 256 * g + b) / 4194304 = r / 64)
      by (Z.div_mod_to_equations; lia).
    assert (E2 : (65536 * r + 256 * g + b) mod 65536 / 16384 = g / 64)
      by (Z.div_mod_to_equations; lia).
    assert (E3 : (65536 * r + 256 * g + b) mod 256 / 64 = b / 64)
      by (Z.div_mod_to_equations; lia).
    by rewrite E1, E2, E3.
  - rewrite H8, Hsum. unfold is_2bit in *. lia.
Qed.

Lemma RGBHTML_is_RGB8_witness :
  RGBHTML (65536 * 255 + 256 * 128 + 63) = RGB8 255 128 63 /\
  RGB8 255 128 63 = RGB (255 / 64) (128 / 64) (63 / 64) /\
  RGB8 255 128 63 = 255 / 64 + 4 * (128 / 64) + 16 * (63 / 64) /\
  0 <= RGB8 255 128 63 <= 63.
Proof. apply (RGBHTML_is_RGB8 255 128 63); unfold is_uint8; lia. Defined.

Lemma DMG_PALETTE_2bit (a b c d : Z) :
  is_2bit a -> is_2bit b -> is_2bit c -> is_2bit d ->
  let pal :=
    to_uint8 (Z.lor (Z.lor (Z.lor (Z.shiftl d 6) (Z.shiftl c 4)) (Z.shiftl b 2)) a) in
  pal = a + 4 * b + 16 * c + 64 * d /\
  Z.land pal 3 = a /\
  Z.land (Z.shiftr pal 2) 3 = b /\
  Z.land (Z.shiftr pal 4) 3 = c /\
  Z.shiftr pal 6 = d.
Proof.
  intros Ha Hb Hc Hd.
  destruct (is_2bit_cases a Ha) as [->|[->|[->| ->]]];
    destruct (is_2bit_cases b Hb) as [->|[->|[->| ->]]];
    destruct (is_2bit_cases c Hc) as [->|[->|[->| ->]]];
    destruct (is_2bit_cases d Hd) as [->|[->|[->| ->]]];
    vm_compute; done.
Qed.

(** X21: [DMG_PALETTE] masks each of its four arguments to two bits and
    packs them lowest first: whatever the arguments, the result is a byte
    and the colour of index [i] is read back from bits [2i], [2i+1] as
    the argument's two low bits. *)
Theorem DMG_PALETTE_fields (C0 C1 C2 C3 : Z) :
  is_uint8 (DMG_PALETTE C0 C1 C2 C3) /\
  Z.land (DMG_PALETTE C0 C1 C2 C3) 3 = Z.land C0 3 /\
  Z.land (Z.shiftr (DMG_PALETTE C0 C1 C2 C3) 2) 3 = Z.land C1 3 /\
  Z.land (Z.shiftr (DMG_PALETTE C0 C1 C2 C3) 4) 3 = Z.land C2 3 /\
  Z.shiftr (DMG_PALETTE C0 C1 C2 C3) 6 = Z.land C3 3.
Proof.
  split; [apply to_uint8_range|].
  destruct (DMG_PALETTE_2bit _ _ _ _ (land_3_is_2bit C0) (land_3_is_2bit C1)
              (land_3_is_2bit C2) (land_3_is_2bit C3)) as (_ & H).
  exact H.
Qed.

(** X22: on colours between 0 and 3, [DMG_PALETTE] and [COMPAT_PALETTE]
    are the same byte, [C0 + 4 C1 + 16 C2 + 64 C3]. *)
Theorem DMG_PALETTE_is_COMPAT_PALETTE (C0 C1 C2 C3 : Z) :
  is_2bit C0 -> is_2bit C1 -> is_2bit C2 -> is_2bit C3 ->
  DMG_PALETTE C0 C1 C2 C3 = COMPAT_PALETTE C0 C1 C2 C3 /\
  COMPAT_PALETTE C0 C1 C2 C3 = C0 + 4 * C1 + 16 * C2 + 64 * C3.
Proof.
  intros H0 H1 H2 H3.
  destruct (DMG_PALETTE_2bit _ _ _ _ H0 H1 H2 H3) as (Hsum & _).
  unfold DMG_PALETTE, COMPAT_PALETTE. split; [|exact Hsum].
  destruct (is_2bit_cases C0 H0) as [->|[->|[->| ->]]];
    destruct (is_2bit_cases C1 H1) as [->|[->|[->| ->]]];
    destruct (is_2bit_cases C2 H2) as [->|[->|[->| ->]]];
    destruct (is_2bit_cases C3 H3) as [->|[->|[->| ->]]];
    reflexivity.
Qed.

Lemma DMG_PALETTE_is_COMPAT_PALETTE_witness :
  DMG_PALETTE 3 2 1 0 = COMPAT_PALETTE 3 2 1 0 /\
  COMPAT_PALETTE 3 2 1 0 = 3 + 4 * 2 + 16 * 1 + 64 * 0.
Proof. apply (DMG_PALETTE_is_COMPAT_PALETTE 3 2 1 0); unfold is_2bit; lia. Defined.

(** Out of range the two macros part: [COMPAT_PALETTE] lets a colour
    spill into the next field, [DMG_PALETTE] drops the excess. *)
Example COMPAT_PALETTE_spills :
  COMPAT_PALETTE 4 0 0 0 = COMPAT_PALETTE 0 1 0 0 /\ DMG_PALETTE 4 0 0 0 = 0.
Proof. split; reflexivity. Qed.

(** ** Joypad bits *)

Lemma forall_uint8 (P : Z -> bool) :
  forallb P (seqZ 0 256) = true -> forall k, is_uint8 k -> P k = true.
Proof.
  intros Hall k Hk. rewrite forallb_forall in Hall. apply Hall.
  apply list_elem_of_In, elem_of_seqZ. unfold is_uint8 in Hk. lia.
Qed.

(** X23: the eight joypad masks are eight different bits that fill the
    byte: every byte returned by [joypad] is the sum of its tests against
    the eight masks, and each test is zero or the mask itself. *)
Theorem joypad_bits_partition (keys : Z) :
  is_uint8 keys ->
  keys = Z.land keys J_A + Z.land keys J_B + Z.land keys J_SELECT
         + Z.land keys J_START + Z.land keys J_UP + Z.land keys J_DOWN
         + Z.land keys J_LEFT + Z.land keys J_RIGHT /\
  Forall (λ J, Z.land keys J = 0 \/ Z.land keys J = J)
    [J_A; J_B; J_SELECT; J_START; J_UP; J_DOWN; J_LEFT; J_RIGHT].
Proof.
  intros Hk.
  pose (P := λ k : Z,
    (k =? Z.land k J_A + Z.land k J_B + Z.land k J_SELECT
          + Z.land k J_START + Z.land k J_UP + Z.land k J_DOWN
          + Z.land k J_LEFT + Z.land k J_RIGHT)
    && forallb (λ J, (Z.land k J =? 0) || (Z.land k J =? J))
         [J_A; J_B; J_SELECT; J_START; J_UP; J_DOWN; J_LEFT; J_RIGHT]).
  assert (HP : P keys = true) by (apply forall_uint8; [by vm_compute | exact Hk]).
  unfold P in HP. apply andb_true_iff in HP as [Hsum Hall]. split.
  - by apply Z.eqb_eq.
  - rewrite forallb_forall in Hall. apply Forall_forall. intros J HJ.
    apply list_elem_of_In in HJ. specialize (Hall J HJ).
    apply orb_true_iff in Hall as [H0|H1]; [left | right]; by apply Z.eqb_eq.
Qed.

Lemma joypad_bits_partition_witness :
  165 = Z.land 165 J_A + Z.land 165 J_B + Z.land 165 J_SELECT
        + Z.land 165 J_START + Z.land 165 J_UP + Z.land 165 J_DOWN
        + Z.land 165 J_LEFT + Z.land 165 J_RIGHT /\
  Forall (λ J, Z.land 165 J = 0 \/ Z.land 165 J = J)
    [J_A; J_B; J_SELECT; J_START; J_UP; J_DOWN; J_LEFT; J_RIGHT].
Proof. apply (joypad_bits_partition 165). unfold is_uint8. lia. Defined.

(** ** More on the wrappers *)

(** X24: [set_native_tile_data] reaches sprite tiles only from 256 on,
    and tile numbers from 512 up wrap onto them: for a 16-bit
    [first_tile >= 256] the call is the call with
    [256 + first_tile mod 256], and it is a [set_sprite_data] call whose
    first tile is [first_tile mod 256]. *)
Theorem set_native_tile_data_wraps `{L : Library}
    (first_tile nb_tiles : Z) (data : list Z) (s : machine) :
  is_uint16 first_tile -> 256 <= first_tile ->
  set_native_tile_data first_tile nb_tiles data s
  = set_native_tile_data (256 + first_tile mod 256) nb_tiles data s /\
  set_native_tile_data first_tile nb_tiles data s
  = set_sprite_data (first_tile mod 256) nb_tiles data s.
Proof.
  intros Hft Hge. unfold set_native_tile_data, is_uint16 in *.
  pose proof (Z.mod_pos_bound first_tile 256).
  destruct (Z.ltb_spec first_tile 256); [lia|].
  destruct (Z.ltb_spec (256 + first_tile mod 256) 256); [lia|].
  assert (E : to_uint8 (to_uint16 (first_tile - 256)) = first_tile mod 256).
  { rewrite to_uint16_id by (unfold is_uint16; lia). unfold to_uint8.
    replace (first_tile - 256) with (first_tile + (-1) * 256) by lia.
    by rewrite Z.mod_add by lia. }
  rewrite E. split; [|reflexivity].
  replace (256 + first_tile mod 256 - 256) with (first_tile mod 256) by lia.
  rewrite to_uint16_id by (unfold is_uint16; lia).
  by rewrite to_uint8_id by (unfold is_uint8; lia).
Qed.

Lemma set_native_tile_data_wraps_witness :
  set_native_tile_data 515 1 [1; 2; 3] sample_machine
  = set_native_tile_data (256 + 515 mod 256) 1 [1; 2; 3] sample_machine /\
  set_native_tile_data 515 1 [1; 2; 3] sample_machine
  = set_sprite_data (515 mod 256) 1 [1; 2; 3] sample_machine.
Proof.
  apply (@set_native_tile_data_wraps reference_library 515 1 [1; 2; 3]
           sample_machine); unfold is_uint16; lia.
Defined.

Lemma set__map_tile_offset_same (s : machine) :
  _map_tile_offset s = 0 -> set__map_tile_offset 0 s = s.
Proof. destruct s. simpl. by intros ->. Qed.

Lemma set__submap_tile_offset_same (s : machine) :
  _submap_tile_offset s = 0 -> set__submap_tile_offset 0 s = s.
Proof. destruct s. simpl. by intros ->. Qed.

(** X25: with the offsets at 0 and library routines that do not assign
    them, a based call with [base_tile = 0] is the plain call: it leaves
    the same machine. *)
Theorem based_call_with_base_zero `{L : Library} `{!LibraryFrame L}
    (x y w h : Z) (tiles : list Z) (map_w : Z) (s : machine) :
  offsets_zero s ->
  set_bkg_based_tiles x y w h tiles 0 s = set_bkg_tiles x y w h tiles s /\
  set_bkg_based_submap x y w h tiles map_w 0 s
  = set_bkg_submap x y w h tiles map_w s.
Proof.
  intros [Hm Hs]. unfold set_bkg_based_tiles, set_bkg_based_submap. split.
  - rewrite (set__map_tile_offset_same s Hm).
    apply set__map_tile_offset_same.
    by rewrite set_bkg_tiles_map_tile_offset.
  - rewrite (set__submap_tile_offset_same s Hs).
    apply set__submap_tile_offset_same.
    by rewrite set_bkg_submap_submap_tile_offset.
Qed.

Lemma based_call_with_base_zero_witness :
  set_bkg_based_tiles 0 0 2 1 [1; 2] 0 sample_machine
  = set_bkg_tiles 0 0 2 1 [1; 2] sample_machine /\
  set_bkg_based_submap 0 0 2 1 [1; 2] 2 0 sample_machine
  = set_bkg_submap 0 0 2 1 [1; 2] 2 sample_machine.
Proof.
  apply (@based_call_with_base_zero reference_library reference_library_frame
           0 0 2 1 [1; 2] 2 sample_machine).
  split; reflexivity.
Defined.

(** The sprite number is a [uint8_t]: 259 names sprite 3, and 255 lies
    outside of the 64 entries of the table. *)
Example sprite_number_converted :
  set_sprite_tile 259 9 sample_machine = set_sprite_tile 3 9 sample_machine /\
  get_sprite_tile 259 sample_machine = Some 7 /\
  hide_sprite 255 sample_machine = None /\
  hide_sprite (-1) sample_machine = None.
Proof. repeat split. Qed.
